(** * maintest / execover: instrumented test executables

    A shallow embedding of the Go package [maintest] (build an instrumented
    executable, run it as a subprocess, merge its coverage at the end) and
    the properties of its three operations [Build], [Command], [Finish] and
    of the argument scanner [findArg].

    Go strings are [string]; a Go [error] is [option string] (its message,
    [None] for [nil]); the calls into the operating system are the events
    of a small free monad, answered by an arbitrary handler. *)

From Stdlib Require Import String Ascii List Bool Arith Lia NArith.
From Stdlib Require Import ZArith DecimalString DecimalPos.
Import ListNotations.
Local Open Scope list_scope.
Local Open Scope string_scope.

Set Implicit Arguments.

(** ** Go standard library: [strings] *)

Module strings.

(** [strings.HasPrefix(s, prefix)]. *)
Definition HasPrefix (s pre : string) : bool := String.prefix pre s.

(** [strings.Join(elems, sep)]. *)
Definition Join (elems : list string) (sep : string) : string :=
  String.concat sep elems.

(** The pieces of [s] between the occurrences of a non-empty [sep], found
    left to right without overlap; [skip] counts the bytes of the
    separator that are still to be passed over. *)
Fixpoint split_from (sep : string) (skip : nat) (s : string) : list string :=
  match s with
  | EmptyString => [""]
  | String a s' =>
      match skip with
      | S k => split_from sep k s'
      | O =>
          if String.prefix sep s
          then "" :: split_from sep (String.length sep - 1) s'
          else match split_from sep 0 s' with
               | h :: t => String a h :: t
               | [] => [String a ""]
               end
      end
  end.

(** One string per byte (Go cuts after each UTF-8 sequence; the program
    never splits on the empty separator). *)
Fixpoint explode (s : string) : list string :=
  match s with
  | EmptyString => []
  | String a s' => String a "" :: explode s'
  end.

(** [strings.Split(s, sep)]. *)
Definition Split (s sep : string) : list string :=
  match sep with
  | EmptyString => explode s
  | _ => split_from sep 0 s
  end.

End strings.

(** ** The process: what the package reads from its surroundings *)

(** [runtime.GOOS], [os.Args], [os.Environ()] and the platform's
    [filepath.Join] (two operands). *)
Record Proc : Type := {
  GOOS : string;
  os_Args : list string;
  os_Environ : list string;
  filepath_Join : string -> string -> string
}.

(** [os.Getenv(key)]: the value of the first entry [key=value] of the
    environment, the empty string when there is none. *)
Fixpoint lookup_env (key : string) (env : list string) : string :=
  match env with
  | [] => ""
  | kv :: env' =>
      if String.prefix (key ++ "=") kv
      then substring (String.length key + 1)
                     (String.length kv - (String.length key + 1)) kv
      else lookup_env key env'
  end.

Definition os_Getenv (p : Proc) (key : string) : string :=
  lookup_env key (os_Environ p).

(** ** The argument scanner *)

(** [vs[1:]] of a Go slice known to have at least one element. *)
Definition slice_from_1 (vs : list string) : list string := List.tl vs.

(** Lines 220-231. The loop over [os.Args] is the recursion on the list. *)
Fixpoint findArg_in (key : string) (args : list string) : string :=
  match args with
  | [] => ""
  | arg :: rest =>
      if strings.HasPrefix arg ("-" ++ key) then
        let vs := strings.Split arg "=" in
        if Nat.leb (List.length vs) 1 then ""
        else strings.Join (slice_from_1 vs) "="
      else findArg_in key rest
  end.

Definition findArg (p : Proc) (key : string) : string :=
  findArg_in key (os_Args p).

(** Lines 212-218. *)
Definition findGoCoverDir (p : Proc) : string :=
  let d := findArg p "test.gocoverdir" in
  if String.eqb d "" then os_Getenv p "GOCOVERDIR" else d.

(** *** The scanner as the specification words it *)

(** The text after the first occurrence of the byte [c], if there is one. *)
Fixpoint after_first (c : ascii) (s : string) : option string :=
  match s with
  | EmptyString => None
  | String a s' => if Ascii.eqb a c then Some s' else after_first c s'
  end.

(** An argument matches a key when its text begins with a dash followed by
    the key. *)
Definition matches (key arg : string) : bool := String.prefix ("-" ++ key) arg.

(** The value of the first matching argument: the text after its first
    equals sign, empty when it has none or when nothing matches. *)
Definition findArg_spec (key : string) (args : list string) : string :=
  match List.find (matches key) args with
  | Some arg =>
      match after_first "="%char arg with
      | Some v => v
      | None => ""
      end
  | None => ""
  end.

(** A key that can name a flag: it is not empty and does not begin with a
    dash (Go's [flag] package refuses a name that begins with one). *)
Definition flag_name (key : string) : bool :=
  match key with
  | EmptyString => false
  | String a _ => negb (Ascii.eqb a "-"%char)
  end.

(** ** Calls into the operating system *)

(** A Go [error]: its message, [None] for [nil]. *)
Definition error : Type := option string.

(** [exec.Cmd]: the program to run, its argument vector (program first)
    and its environment (empty for the inherited one). *)
Record Cmd : Type := {
  cmd_Path : string;
  cmd_Args : list string;
  cmd_Env : list string
}.

(** [os.DirEntry]. *)
Record DirEntry : Type := {
  entry_Name : string;
  entry_IsDir : bool
}.

(** An open [*os.File]. *)
Definition File : Type := nat.

(** The calls the package makes, each with the type of its answer. *)
Inductive osE : Type -> Type :=
| exec_LookPath (file : string) : osE (string * error)
| os_MkdirTemp (dir pattern : string) : osE (string * error)
| os_MkdirAll (path : string) (perm : N) : osE error
| os_RemoveAll (path : string) : osE error
| os_ReadDir (name : string) : osE (list DirEntry * error)
| os_Create (name : string) : osE (File * error)
| os_Open (name : string) : osE (File * error)
| io_Copy (dst src : File) : osE (N * error)
| File_Close (f : File) : osE error
| Cmd_CombinedOutput (c : Cmd) : osE (string * error)
| DebugLog_Printf (msg : string) : osE unit.

(** A program: a finite tree of calls, each continued on its answer. *)
Inductive Prog (A : Type) : Type :=
| Ret (a : A)
| Vis (X : Type) (e : osE X) (k : X -> Prog A).

Arguments Ret {A} a.
Arguments Vis {A X} e k.

Fixpoint bind {A B : Type} (m : Prog A) (f : A -> Prog B) : Prog B :=
  match m with
  | Ret a => f a
  | Vis e k => Vis e (fun x => bind (k x) f)
  end.

Definition call {X : Type} (e : osE X) : Prog X := Vis e Ret.

Declare Scope prog_scope.
Delimit Scope prog_scope with prog.
Notation "x <- m ;; k" := (bind m (fun x => k))
  (at level 61, m at next level, right associativity) : prog_scope.
Notation "' pat <- m ;; k" := (bind m (fun x => match x with pat => k end))
  (at level 61, pat pattern, m at next level, right associativity) : prog_scope.
Notation "m ;;; k" := (bind m (fun _ => k))
  (at level 61, right associativity) : prog_scope.
Local Open Scope prog_scope.

(** An operating system: a state and an answer to every call. *)
Record OS : Type := {
  os_state : Type;
  os_answer : forall X : Type, osE X -> os_state -> X * os_state
}.

(** A call that was made, with the answer it got. *)
Inductive event : Type :=
| Called (X : Type) (e : osE X) (x : X).

Arguments Called {X} e x.

(** Running a program: its result, the final state and the calls made. *)
Fixpoint run (os : OS) {A : Type} (m : Prog A) (s : os_state os)
  : A * os_state os * list event :=
  match m with
  | Ret a => (a, s, [])
  | Vis e k =>
      let (x, s1) := os_answer os e s in
      let '(a, s2, t) := run os (k x) s1 in
      (a, s2, Called e x :: t)
  end.

Definition result_of {A S : Type} (r : A * S * list event) : A := fst (fst r).
Definition state_of {A S : Type} (r : A * S * list event) : S := snd (fst r).
Definition trace_of {A S : Type} (r : A * S * list event) : list event := snd r.

(** The messages of the search-path lookups that failed, in order. *)
Definition lookup_failures (t : list event) : list string :=
  flat_map (fun ev =>
    match ev with
    | Called e x =>
        match e in osE X return X -> list string with
        | exec_LookPath _ =>
            fun r => match snd r with Some m => [m] | None => [] end
        | _ => fun _ => []
        end x
    end) t.

(** The messages of the directory creations that failed, in order. *)
Definition mkdir_failures (t : list event) : list string :=
  flat_map (fun ev =>
    match ev with
    | Called e x =>
        match e in osE X return X -> list string with
        | os_MkdirTemp _ _ =>
            fun r => match snd r with Some m => [m] | None => [] end
        | os_MkdirAll _ _ =>
            fun r => match r with Some m => [m] | None => [] end
        | _ => fun _ => []
        end x
    end) t.

(** The subprocesses run, in order. *)
Definition commands_run (t : list event) : list Cmd :=
  flat_map (fun ev =>
    match ev with
    | Called (Cmd_CombinedOutput c) _ => [c]
    | _ => []
    end) t.

(** The combined output of each subprocess that exited non-zero. *)
Definition failed_outputs (t : list event) : list string :=
  flat_map (fun ev =>
    match ev with
    | Called e x =>
        match e in osE X return X -> list string with
        | Cmd_CombinedOutput _ =>
            fun r => match snd r with Some _ => [fst r] | None => [] end
        | _ => fun _ => []
        end x
    end) t.

(** The directories listed without error, each with its entries. *)
Definition listings (t : list event) : list (string * list DirEntry) :=
  flat_map (fun ev =>
    match ev with
    | Called e x =>
        match e in osE X return X -> list (string * list DirEntry) with
        | os_ReadDir name =>
            fun r => match snd r with Some _ => [] | None => [(name, fst r)] end
        | _ => fun _ => []
        end x
    end) t.

(** The directory trees whose removal was asked for. *)
Definition trees_removed (t : list event) : list string :=
  flat_map (fun ev =>
    match ev with
    | Called (os_RemoveAll n) _ => [n]
    | _ => []
    end) t.

(** A file created without error: its name and handle. *)
Definition as_create (ev : event) : option (string * File) :=
  match ev with
  | Called e x =>
      match e in osE X return X -> option (string * File) with
      | os_Create name =>
          fun r => match snd r with Some _ => None | None => Some (name, fst r) end
      | _ => fun _ => None
      end x
  end.

(** A file opened without error: its name and handle. *)
Definition as_open (ev : event) : option (string * File) :=
  match ev with
  | Called e x =>
      match e in osE X return X -> option (string * File) with
      | os_Open name =>
          fun r => match snd r with Some _ => None | None => Some (name, fst r) end
      | _ => fun _ => None
      end x
  end.

(** Bytes copied without error: the destination and the source handle. *)
Definition as_copy (ev : event) : option (File * File) :=
  match ev with
  | Called e x =>
      match e in osE X return X -> option (File * File) with
      | io_Copy dst src =>
          fun r => match snd r with Some _ => None | None => Some (dst, src) end
      | _ => fun _ => None
      end x
  end.

(** The files copied, source and destination name, in order: a
    destination created, then the source opened, then the bytes copied
    from the one handle to the other, each without error. *)
Fixpoint copies (t : list event) : list (string * string) :=
  match t with
  | [] => []
  | ev :: t' =>
      match as_create ev with
      | Some (dst, out) =>
          match t' with
          | o :: k :: _ =>
              match as_open o, as_copy k with
              | Some (src, in_), Some (d, s) =>
                  if Nat.eqb d out && Nat.eqb s in_
                  then (src, dst) :: copies t'
                  else copies t'
              | _, _ => copies t'
              end
          | _ => copies t'
          end
      | None => copies t'
      end
  end.

(** ** The handle *)

(** Lines 30-40. *)
Record Exe : Type := {
  Path : string;
  CoverageDir : string;
  binDir : string;
  buildPkg : string;
  extraArgs : list string;
  overrideCovDir : string;
  delveOpts : list string
}.

(** [var exe Exe]. *)
Definition zeroExe : Exe :=
  {| Path := ""; CoverageDir := ""; binDir := ""; buildPkg := "";
     extraArgs := []; overrideCovDir := ""; delveOpts := [] |}.

Definition set_Path (v : string) (e : Exe) : Exe :=
  {| Path := v; CoverageDir := CoverageDir e; binDir := binDir e;
     buildPkg := buildPkg e; extraArgs := extraArgs e;
     overrideCovDir := overrideCovDir e; delveOpts := delveOpts e |}.

Definition set_CoverageDir (v : string) (e : Exe) : Exe :=
  {| Path := Path e; CoverageDir := v; binDir := binDir e;
     buildPkg := buildPkg e; extraArgs := extraArgs e;
     overrideCovDir := overrideCovDir e; delveOpts := delveOpts e |}.

Definition set_binDir (v : string) (e : Exe) : Exe :=
  {| Path := Path e; CoverageDir := CoverageDir e; binDir := v;
     buildPkg := buildPkg e; extraArgs := extraArgs e;
     overrideCovDir := overrideCovDir e; delveOpts := delveOpts e |}.

(** [type Option func(e *Exe)]: the handle after the option ran on it. *)
Definition Option : Type := Exe -> Exe.

(** Lines 66-71. ([DebugFlag], lines 45-58, registers a command-line flag
    and yields this option on ["--headless"; "-l"; "localhost:" ++ port]
    once the flag was given a number, and the option that does nothing
    otherwise; the flag package is not embedded.) *)
Definition Debug (dlvArgs : list string) : Option := fun e =>
  {| Path := Path e; CoverageDir := CoverageDir e; binDir := binDir e;
     buildPkg := buildPkg e;
     extraArgs := (extraArgs e ++ ["-gcflags=all=-N -l"])%list;
     overrideCovDir := overrideCovDir e;
     delveOpts := (delveOpts e ++ dlvArgs)%list |}.

(** Lines 74-78. *)
Definition WriteCoverage (path : string) : Option := fun e =>
  {| Path := Path e; CoverageDir := CoverageDir e; binDir := binDir e;
     buildPkg := buildPkg e; extraArgs := extraArgs e;
     overrideCovDir := path; delveOpts := delveOpts e |}.

(** Lines 82-86. *)
Definition Package (pkg : string) : Option := fun e =>
  {| Path := Path e; CoverageDir := CoverageDir e; binDir := binDir e;
     buildPkg := pkg; extraArgs := extraArgs e;
     overrideCovDir := overrideCovDir e; delveOpts := delveOpts e |}.

(** [for _, option := range opts { option(&exe) }]. *)
Definition apply_options (opts : list Option) (e : Exe) : Exe :=
  fold_left (fun acc option => option acc) opts e.

(** [exec.Command(name, arg...)]; a bare name is resolved against the
    search path when the command is run. *)
Definition exec_Command (name : string) (arg : list string) : Cmd :=
  {| cmd_Path := name; cmd_Args := name :: arg; cmd_Env := [] |}.

Definition set_Env (env : list string) (c : Cmd) : Cmd :=
  {| cmd_Path := cmd_Path c; cmd_Args := cmd_Args c; cmd_Env := env |}.

(** ** Build *)

(** Lines 272-282. *)
Definition goTool (p : Proc) : Prog (string * error) :=
  let exeSuffix := if String.eqb (GOOS p) "windows" then ".exe" else "" in
  '(goBin, err) <- call (exec_LookPath ("go" ++ exeSuffix)) ;;
  match err with
  | Some m => Ret ("", Some ("cannot find go tool: " ++ m))
  | None => Ret (goBin, None)
  end.

(** Lines 112-114: the name of the executable file. *)
Definition Build_exeName (p : Proc) (exeName : string) : string :=
  if String.eqb (GOOS p) "window" then exeName ++ ".exe" else exeName.

(** Lines 117-122: the arguments of the build. *)
Definition Build_args (exe : Exe) : list string :=
  let args := ["build"] in
  let args := (args ++ extraArgs exe)%list in
  let args := (args ++ ["-cover"; "-o"; Path exe])%list in
  if negb (String.eqb (buildPkg exe) "") then (args ++ [buildPkg exe])%list
  else args.

(** Lines 90-134. The test of [err] on line 125 sees the [nil] of line 107
    and never returns. *)
Definition Build (p : Proc) (exeName : string) (opts : list Option)
  : Prog (option Exe * error) :=
  '(gotool, err) <- goTool p ;;
  match err with
  | Some m => Ret (None, Some m)
  | None =>
      let exe := apply_options opts zeroExe in
      '(dir, err) <- call (os_MkdirTemp "" "gotestexe") ;;
      let exe := set_binDir dir exe in
      match err with
      | Some m => Ret (None, Some m)
      | None =>
          let exe := set_CoverageDir (filepath_Join p (binDir exe) ".coverage") exe in
          err <- call (os_MkdirAll (CoverageDir exe) 448) ;;
          match err with
          | Some m => Ret (None, Some m)
          | None =>
              call (DebugLog_Printf ("GOCOVERDIR: " ++ CoverageDir exe)) ;;;
              let exeName := Build_exeName p exeName in
              let exe := set_Path (filepath_Join p (binDir exe) exeName) exe in
              let build := exec_Command gotool (Build_args exe) in
              call (DebugLog_Printf ("build: " ++ strings.Join (cmd_Args build) " ")) ;;;
              '(out, err) <- call (Cmd_CombinedOutput build) ;;
              match err with
              | Some _ => Ret (None, Some ("go build: " ++ out))
              | None => Ret (Some exe, None)
              end
          end
      end
  end.

(** ** Command *)

(** Lines 146-149: the debugger's file name. *)
Definition dlvExe (p : Proc) : string :=
  if String.eqb (GOOS p) "windows" then "dlv" ++ ".exe" else "dlv".

(** Lines 138-157. *)
Definition Command (p : Proc) (b : Exe) (args : list string) : Cmd :=
  let cmd :=
    if Nat.ltb 0 (List.length (delveOpts b)) then
      let dlvArgs := ["exec"] in
      let dlvArgs := (dlvArgs ++ ["--log-dest"; "/dev/null"])%list in
      let dlvArgs := (dlvArgs ++ delveOpts b)%list in
      let dlvArgs := (dlvArgs ++ [Path b; "--"])%list in
      let dlvArgs := (dlvArgs ++ args)%list in
      exec_Command (dlvExe p) dlvArgs
    else exec_Command (Path b) args in
  set_Env (os_Environ p ++ [("GOCOVERDIR=" ++ CoverageDir b)%string])%list cmd.

(** ** Finish *)

(** Lines 198-210. *)
Definition mergeGoCover (p : Proc) (from dst : string) : Prog error :=
  '(gotool, err) <- goTool p ;;
  match err with
  | Some m => Ret (Some m)
  | None =>
      let covdata :=
        exec_Command gotool ["tool"; "covdata"; "textfmt"; "-i"; from; "-o"; dst] in
      call (DebugLog_Printf (strings.Join (cmd_Args covdata) " ")) ;;;
      '(out, err) <- call (Cmd_CombinedOutput covdata) ;;
      match err with
      | Some _ => Ret (Some ("go tool covdata: " ++ out))
      | None => Ret None
      end
  end.

(** Lines 254-269. The deferred closes run last opened first. *)
Definition copyFile (src dst : string) : Prog error :=
  '(out, err) <- call (os_Create dst) ;;
  match err with
  | Some m => Ret (Some m)
  | None =>
      '(in_, err) <- call (os_Open src) ;;
      match err with
      | Some m => call (File_Close out) ;;; Ret (Some m)
      | None =>
          '(_, err) <- call (io_Copy out in_) ;;
          call (File_Close in_) ;;;
          call (File_Close out) ;;;
          Ret err
      end
  end.

(** Lines 239-251: the loop over the entries. *)
Fixpoint copyEntries (p : Proc) (src dst : string) (entries : list DirEntry)
  : Prog error :=
  match entries with
  | [] => Ret None
  | entry :: rest =>
      call (DebugLog_Printf ("found " ++ entry_Name entry)) ;;;
      let srcPath := filepath_Join p src (entry_Name entry) in
      let dstPath := filepath_Join p dst (entry_Name entry) in
      if entry_IsDir entry then copyEntries p src dst rest
      else
        err <- copyFile srcPath dstPath ;;
        match err with
        | Some m => Ret (Some m)
        | None => copyEntries p src dst rest
        end
  end.

(** Lines 234-252. *)
Definition copyAll (p : Proc) (src dst : string) : Prog error :=
  '(entries, err) <- call (os_ReadDir src) ;;
  match err with
  | Some m => Ret (Some m)
  | None => copyEntries p src dst entries
  end.

(** Lines 166-169: the profile destination. *)
Definition Finish_coverprofile (p : Proc) (b : Exe) : string :=
  let coverprofile := findArg p "test.coverprofile" in
  if negb (String.eqb (overrideCovDir b) "") then overrideCovDir b
  else coverprofile.

(** The message of line 192. *)
Definition ConfigurationError : string :=
  "-test.coverprofile and -test.gocoverdir not set in os.Args, not writing coverage data".

(** Lines 177-194. *)
Definition Finish_copy (p : Proc) (b : Exe) (coverprofile : string) : Prog error :=
  let gocoverdir := findGoCoverDir p in
  r <- (if negb (String.eqb gocoverdir "") then
          call (DebugLog_Printf ("copying coverage from " ++ CoverageDir b
                                 ++ " to " ++ gocoverdir)) ;;;
          err <- call (os_MkdirAll gocoverdir 502) ;;
          match err with
          | Some m => Ret (Some ("mkdir GOCOVERDIR: " ++ m))
          | None =>
              err <- copyAll p (CoverageDir b) gocoverdir ;;
              match err with
              | Some m =>
                  Ret (Some ("copying cov files to -test.gocoverdir "
                             ++ gocoverdir ++ ": " ++ m))
              | None => Ret None
              end
          end
        else Ret None) ;;
  match r with
  | Some m => Ret (Some m)
  | None =>
      if String.eqb coverprofile "" && String.eqb gocoverdir ""
      then Ret (Some ConfigurationError)
      else Ret None
  end.

(** Lines 164-194: the body of [Finish], before the deferred call. *)
Definition Finish_body (p : Proc) (b : Exe) : Prog error :=
  call (DebugLog_Printf ("go test args: " ++ strings.Join (os_Args p) " ")) ;;;
  let coverprofile := Finish_coverprofile p b in
  r <- (if negb (String.eqb coverprofile "") then
          mergeGoCover p (CoverageDir b) coverprofile
        else Ret None) ;;
  match r with
  | Some m => Ret (Some m)
  | None => Finish_copy p b coverprofile
  end.

(** Lines 162-195: [defer os.RemoveAll(b.binDir)] runs when the body
    returns, whatever it returns. *)
Definition Finish (p : Proc) (b : Exe) : Prog error :=
  r <- Finish_body p b ;;
  call (os_RemoveAll (binDir b)) ;;;
  Ret r.

(** What [copyAll] is to copy for one entry: the entry's name under the
    source and under the destination directory. *)
Definition copy_of (p : Proc) (src dst : string) (entry : DirEntry)
  : string * string :=
  (filepath_Join p src (entry_Name entry), filepath_Join p dst (entry_Name entry)).

(** An entry that is not a directory. *)
Definition is_file (entry : DirEntry) : bool := negb (entry_IsDir entry).

(** ** A scripted operating system, to run the programs on *)

Module Sim.

(** What each call is answered with. *)
Record Script : Type := {
  look : string -> string * error;
  tempdir : string * error;
  mkdirall : string -> error;
  readdir : string -> list DirEntry * error;
  create : string -> error;
  open : string -> error;
  copy : error;
  output : Cmd -> string * error
}.

(** The state is the next file handle. *)
Definition answer (sc : Script) (X : Type) (e : osE X) (s : nat) : X * nat :=
  match e in osE X return X * nat with
  | exec_LookPath f => (look sc f, s)
  | os_MkdirTemp _ _ => (tempdir sc, s)
  | os_MkdirAll path _ => (mkdirall sc path, s)
  | os_RemoveAll _ => (None, s)
  | os_ReadDir n => (readdir sc n, s)
  | os_Create n => ((s, create sc n), S s)
  | os_Open n => ((s, open sc n), S s)
  | io_Copy _ _ => ((0%N, copy sc), s)
  | File_Close _ => (None, s)
  | Cmd_CombinedOutput c => (output sc c, s)
  | DebugLog_Printf _ => (tt, s)
  end.

Definition os (sc : Script) : OS :=
  {| os_state := nat; os_answer := answer sc |}.

(** Two coverage files and a subdirectory. *)
Definition entries : list DirEntry :=
  [ {| entry_Name := "covmeta.1"; entry_IsDir := false |};
    {| entry_Name := "sub"; entry_IsDir := true |};
    {| entry_Name := "covcounters.1"; entry_IsDir := false |} ].

(** Every call succeeds. *)
Definition fine : Script :=
  {| look := fun f => ("/usr/local/go/bin/" ++ f, None);
     tempdir := ("/tmp/gotestexe1", None);
     mkdirall := fun _ => None;
     readdir := fun _ => (entries, None);
     create := fun _ => None;
     open := fun _ => None;
     copy := None;
     output := fun _ => ("", None) |}.

(** The search path has no go tool. *)
Definition no_go : Script :=
  {| look := fun f => ("", Some ("exec: " ++ f ++ ": executable file not found in $PATH"));
     tempdir := tempdir fine; mkdirall := mkdirall fine;
     readdir := readdir fine; create := create fine; open := open fine;
     copy := copy fine; output := output fine |}.

(** No temporary directory can be made. *)
Definition no_tempdir : Script :=
  {| look := look fine;
     tempdir := ("", Some "mkdir /tmp/gotestexe1: permission denied");
     mkdirall := mkdirall fine;
     readdir := readdir fine; create := create fine; open := open fine;
     copy := copy fine; output := output fine |}.

(** Every subprocess exits non-zero. *)
Definition failing_tool : Script :=
  {| look := look fine; tempdir := tempdir fine; mkdirall := mkdirall fine;
     readdir := readdir fine; create := create fine; open := open fine;
     copy := copy fine;
     output := fun _ => ("main.go:3:1: syntax error", Some "exit status 1") |}.

(** The first coverage file cannot be created at the destination. *)
Definition no_meta : Script :=
  {| look := look fine; tempdir := tempdir fine; mkdirall := mkdirall fine;
     readdir := readdir fine;
     create := fun n => if String.eqb n "/cov/covmeta.1"
                        then Some "open /cov/covmeta.1: permission denied"
                        else None;
     open := open fine; copy := copy fine; output := output fine |}.

(** The destination directory cannot be made. *)
Definition no_mkdir : Script :=
  {| look := look fine; tempdir := tempdir fine;
     mkdirall := fun path => Some ("mkdir " ++ path ++ ": permission denied");
     readdir := readdir fine; create := create fine; open := open fine;
     copy := copy fine; output := output fine |}.

(** A process on Linux. *)
Definition linux (args env : list string) : Proc :=
  {| GOOS := "linux"; os_Args := args; os_Environ := env;
     filepath_Join := fun a b => a ++ "/" ++ b |}.

(** A process on Windows. *)
Definition windows (args env : list string) : Proc :=
  {| GOOS := "windows"; os_Args := args; os_Environ := env;
     filepath_Join := fun a b => a ++ "\" ++ b |}.

(** A handle as [Build] leaves it. *)
Definition handle : Exe :=
  {| Path := "/tmp/gotestexe1/add"; CoverageDir := "/tmp/gotestexe1/.coverage";
     binDir := "/tmp/gotestexe1"; buildPkg := ""; extraArgs := [];
     overrideCovDir := ""; delveOpts := [] |}.

End Sim.

(** ** Further observations of a run *)

(** The file names looked up on the search path, in order. *)
Definition lookups (t : list event) : list string :=
  flat_map (fun ev =>
    match ev with
    | Called (exec_LookPath f) _ => [f]
    | _ => []
    end) t.

(** The temporary directories asked for: parent and pattern. *)
Definition tempdirs_asked (t : list event) : list (string * string) :=
  flat_map (fun ev =>
    match ev with
    | Called (os_MkdirTemp dir pattern) _ => [(dir, pattern)]
    | _ => []
    end) t.

(** The temporary directories made without error. *)
Definition tempdirs_made (t : list event) : list string :=
  flat_map (fun ev =>
    match ev with
    | Called e x =>
        match e in osE X return X -> list string with
        | os_MkdirTemp _ _ =>
            fun r => match snd r with Some _ => [] | None => [fst r] end
        | _ => fun _ => []
        end x
    end) t.

(** The directories [os.MkdirAll] was called on, with the permissions. *)
Definition dirs_asked (t : list event) : list (string * N) :=
  flat_map (fun ev =>
    match ev with
    | Called (os_MkdirAll path perm) _ => [(path, perm)]
    | _ => []
    end) t.

(** The directories whose listing was asked for. *)
Definition listings_asked (t : list event) : list string :=
  flat_map (fun ev =>
    match ev with
    | Called (os_ReadDir name) _ => [name]
    | _ => []
    end) t.

(** The files [os.Create] was called on, whatever the answer. *)
Definition creations (t : list event) : list string :=
  flat_map (fun ev =>
    match ev with
    | Called (os_Create name) _ => [name]
    | _ => []
    end) t.

(** The files [os.Open] was called on, whatever the answer. *)
Definition openings (t : list event) : list string :=
  flat_map (fun ev =>
    match ev with
    | Called (os_Open name) _ => [name]
    | _ => []
    end) t.

(** The messages of the listings, creations, openings and copies that
    failed, in order. *)
Definition copy_failures (t : list event) : list string :=
  flat_map (fun ev =>
    match ev with
    | Called e x =>
        match e in osE X return X -> list string with
        | os_ReadDir _ =>
            fun r => match snd r with Some m => [m] | None => [] end
        | os_Create _ =>
            fun r => match snd r with Some m => [m] | None => [] end
        | os_Open _ =>
            fun r => match snd r with Some m => [m] | None => [] end
        | io_Copy _ _ =>
            fun r => match snd r with Some m => [m] | None => [] end
        | _ => fun _ => []
        end x
    end) t.

(** The messages of the openings that failed. *)
Definition open_failures (t : list event) : list string :=
  flat_map (fun ev =>
    match ev with
    | Called e x =>
        match e in osE X return X -> list string with
        | os_Open _ =>
            fun r => match snd r with Some m => [m] | None => [] end
        | _ => fun _ => []
        end x
    end) t.

(** A call that [copyFile] makes or a line of the log. *)
Definition is_file_event (ev : event) : bool :=
  match ev with
  | Called (os_Create _) _ => true
  | Called (os_Open _) _ => true
  | Called (io_Copy _ _) _ => true
  | Called (File_Close _) _ => true
  | Called (DebugLog_Printf _) _ => true
  | _ => false
  end.

(** The handle a call closes. *)
Definition as_close (ev : event) : option File :=
  match ev with
  | Called (File_Close f) _ => Some f
  | _ => None
  end.

Fixpoint remove_first (f : File) (l : list File) : list File :=
  match l with
  | [] => []
  | g :: l' => if Nat.eqb f g then l' else g :: remove_first f l'
  end.

(** The handles open after a call: a file created or opened without error
    is one more, a file closed one less. *)
Definition track (opened : list File) (ev : event) : list File :=
  match as_create ev, as_open ev, as_close ev with
  | Some (_, f), _, _ => f :: opened
  | None, Some (_, f), _ => f :: opened
  | None, None, Some f => remove_first f opened
  | None, None, None => opened
  end.

(** The handles still open after the calls of [t], given those open
    before. *)
Definition still_open (opened : list File) (t : list event) : list File :=
  fold_left track t opened.

(** ** More scripts for the scripted operating system *)

(** No source file can be opened. *)
Definition unreadable : Sim.Script :=
  {| Sim.look := Sim.look Sim.fine; Sim.tempdir := Sim.tempdir Sim.fine;
     Sim.mkdirall := Sim.mkdirall Sim.fine;
     Sim.readdir := Sim.readdir Sim.fine;
     Sim.create := Sim.create Sim.fine;
     Sim.open := fun n => Some ("open " ++ n ++ ": no such file or directory");
     Sim.copy := Sim.copy Sim.fine; Sim.output := Sim.output Sim.fine |}.

(** The private coverage directory cannot be listed. *)
Definition unlistable : Sim.Script :=
  {| Sim.look := Sim.look Sim.fine; Sim.tempdir := Sim.tempdir Sim.fine;
     Sim.mkdirall := Sim.mkdirall Sim.fine;
     Sim.readdir := fun n => ([], Some ("open " ++ n ++ ": permission denied"));
     Sim.create := Sim.create Sim.fine;
     Sim.open := Sim.open Sim.fine;
     Sim.copy := Sim.copy Sim.fine; Sim.output := Sim.output Sim.fine |}.

(** ** Options, by name *)

(** The three options the package exports, as data. *)
Inductive Setting : Type :=
| SetDebug (dlvArgs : list string)
| SetCoverage (path : string)
| SetPackage (pkg : string).

Definition option_of (o : Setting) : Option :=
  match o with
  | SetDebug dlvArgs => Debug dlvArgs
  | SetCoverage path => WriteCoverage path
  | SetPackage pkg => Package pkg
  end.

(** The debugger arguments, the packages and the override paths given, in
    order. *)
Definition debugger_args (l : list Setting) : list string :=
  flat_map (fun o => match o with SetDebug a => a | _ => [] end) l.

Definition debug_flags (l : list Setting) : list string :=
  flat_map (fun o => match o with
                     | SetDebug _ => ["-gcflags=all=-N -l"]
                     | _ => []
                     end) l.

Definition packages (l : list Setting) : list string :=
  flat_map (fun o => match o with SetPackage pkg => [pkg] | _ => [] end) l.

Definition overrides (l : list Setting) : list string :=
  flat_map (fun o => match o with SetCoverage path => [path] | _ => [] end) l.

(** ** Go standard library: [strconv.Atoi], on a 64-bit platform *)

Module strconv.

(** [ErrSyntax] and [ErrRange]. *)
Inductive NumErr : Type := ErrSyntax | ErrRange.

Definition is_digit (c : ascii) : bool :=
  Nat.leb 48 (nat_of_ascii c) && Nat.leb (nat_of_ascii c) 57.

Definition maxUint64 : Z := 18446744073709551615.

(** [maxUint64/10 + 1]: from here on one more digit overflows. *)
Definition uint_cutoff : Z := 1844674407370955162.

(** [1 << 63]. *)
Definition int_cutoff : Z := 9223372036854775808.

(** The loop of [ParseUint] in base 10: an overflow ends it at once, with
    the largest value, before the later bytes are looked at. *)
Fixpoint parse_digits (s : string) (n : Z) : Z * option NumErr :=
  match s with
  | EmptyString => (n, None)
  | String c s' =>
      if is_digit c then
        if (uint_cutoff <=? n)%Z then (maxUint64, Some ErrRange)
        else
          let n1 := (n * 10 + Z.of_nat (nat_of_ascii c - 48))%Z in
          if (maxUint64 <? n1)%Z then (maxUint64, Some ErrRange)
          else parse_digits s' n1
      else (0%Z, Some ErrSyntax)
  end.

(** [ParseUint(s, 10, 64)]. *)
Definition ParseUint (s : string) : Z * option NumErr :=
  match s with
  | EmptyString => (0%Z, Some ErrSyntax)
  | _ => parse_digits s 0
  end.

(** [ParseInt(s, 10, 0)]. *)
Definition ParseInt (s : string) : Z * option NumErr :=
  match s with
  | EmptyString => (0%Z, Some ErrSyntax)
  | String c s' =>
      let neg := Ascii.eqb c "-" in
      let body := if Ascii.eqb c "+" || Ascii.eqb c "-" then s' else s in
      let (un, err) := ParseUint body in
      match err with
      | Some ErrSyntax => (0%Z, Some ErrSyntax)
      | _ =>
          if negb neg && (int_cutoff <=? un)%Z
          then ((int_cutoff - 1)%Z, Some ErrRange)
          else if neg && (int_cutoff <? un)%Z
          then ((- int_cutoff)%Z, Some ErrRange)
          else ((if neg then - un else un)%Z, None)
      end
  end.

(** [Atoi(s)]: its short path for strings of fewer than 19 bytes computes
    what [ParseInt] computes on them. *)
Definition Atoi (s : string) : Z * option NumErr := ParseInt s.

(** The method [Error] of a [NumError], given [strconv.Quote]. *)
Definition Error (Quote : string -> string) (s : string) (e : NumErr) : string :=
  "strconv.Atoi: parsing " ++ Quote s ++ ": "
  ++ match e with
     | ErrSyntax => "invalid syntax"
     | ErrRange => "value out of range"
     end.

End strconv.



(** ** The debug flag *)

(** Line 47: the option before the flag is seen. *)
Definition DebugFlag_initial : Option := fun e => e.

(** Lines 48-55: the function registered for the flag, on the option the
    returned pointer holds; it is called with the value of each
    occurrence of the flag. *)
Definition DebugFlag_func (Quote : string -> string) (s : string) (opt : Option)
  : Option * error :=
  let (_, err) := strconv.Atoi s in
  match err with
  | Some e => (opt, Some (strconv.Error Quote s e))
  | None => (Debug ["--headless"; "-l"; "localhost:" ++ s], None)
  end.

(** ** The package before options: [execover] *)

Module execover.

(** The handle. *)
Record Exe : Type := {
  Path : string;
  CoverageDir : string;
  binDir : string
}.

Definition goTool (p : Proc) : Prog (string * error) :=
  let exeSuffix := if String.eqb (GOOS p) "windows" then ".exe" else "" in
  '(goBin, err) <- call (exec_LookPath ("go1.20rc1" ++ exeSuffix)) ;;
  match err with
  | Some m => Ret ("", Some ("cannot find go tool: " ++ m))
  | None => Ret (goBin, None)
  end.

Definition Command (p : Proc) (b : Exe) (args : list string) : Cmd :=
  let cmd := exec_Command (Path b) args in
  set_Env (os_Environ p ++ [("GOCOVERDIR=" ++ CoverageDir b)%string])%list cmd.

(** The body of [Finish], before the deferred call. *)
Definition Finish_body (p : Proc) (b : Exe) : Prog error :=
  '(gotool, err) <- goTool p ;;
  match err with
  | Some m => Ret (Some m)
  | None =>
      let coverprofile := findArg p "test.coverprofile" in
      if negb (String.eqb coverprofile "") then
        let covdata :=
          exec_Command gotool
            ["tool"; "covdata"; "textfmt"; "-i"; CoverageDir b; "-o"; coverprofile] in
        '(out, err) <- call (Cmd_CombinedOutput covdata) ;;
        match err with
        | Some _ => Ret (Some ("go tool covdata: " ++ out))
        | None => Ret None
        end
      else Ret (Some ConfigurationError)
  end.

Definition Finish (p : Proc) (b : Exe) : Prog error :=
  r <- Finish_body p b ;;
  call (os_RemoveAll (binDir b)) ;;;
  Ret r.

End execover.

(** ** The tests of the example *)

(** How a test function ends. *)
Inductive TestResult : Type :=
| Passed
| Failed (msg : string)
| Panicked.

(** [string(b)] of a byte [b]: the UTF-8 encoding of the code point. *)
Definition string_of_byte (c : ascii) : string :=
  let n := nat_of_ascii c in
  if Nat.ltb n 128 then String c ""
  else String (ascii_of_nat (192 + n / 64))
         (String (ascii_of_nat (128 + n mod 64)) "").

(** [TestAdd4] on the [execover] handle: the error of the run is dropped,
    [out[0]] panics on an empty output, [t.Errorf] fails the test. *)
Definition TestAdd4 (p : Proc) (exe : execover.Exe) : Prog TestResult :=
  '(out, _) <- call (Cmd_CombinedOutput (execover.Command p exe ["1"; "3"])) ;;
  match out with
  | EmptyString => Ret Panicked
  | String c _ =>
      let result := string_of_byte c in
      if negb (String.eqb result "4")
      then Ret (Failed ("got " ++ result ++ ", expected 4"))
      else Ret Passed
  end.

(** [TestMain] of the example on [maintest]: [debugFlag] is what the
    pointer holds once the flags are parsed, [m_Run] runs the tests on the
    handle. The result is the exit code and the lines logged;
    [log.Fatalf] exits with 1. [Build] never returns neither a handle nor
    an error; there the use of the handle would panic, exit code 2. *)
Definition TestMain (p : Proc) (debugFlag : Option) (m_Run : Exe -> Prog Z)
  : Prog (Z * list string) :=
  '(exe, err) <- Build p "add" [debugFlag] ;;
  match err with
  | Some m => Ret (1%Z, ["build error: " ++ m])
  | None =>
      match exe with
      | None => Ret (2%Z, [])
      | Some exe =>
          rc <- m_Run exe ;;
          err <- Finish p exe ;;
          match err with
          | Some m => Ret (rc, ["warning: " ++ m])
          | None => Ret (rc, [])
          end
      end
  end.

(** * Properties *)

(** ** Running programs *)

Lemma run_bind (os : OS) (A B : Type) (m : Prog A) (f : A -> Prog B) (s : os_state os) :
  run os (bind m f) s =
  let '(a, s1, t1) := run os m s in
  let '(b, s2, t2) := run os (f a) s1 in
  (b, s2, (t1 ++ t2)%list).
Proof.
  revert s. induction m as [a | X e k IH]; intros s; simpl.
  - destruct (run os (f a) s) as [[b s2] t2]. reflexivity.
  - destruct (os_answer os e s) as [x s1]. rewrite IH.
    destruct (run os (k x) s1) as [[a s2] t1].
    destruct (run os (f a) s2) as [[b s3] t2]. reflexivity.
Qed.

(** ** Splitting on the equals sign *)

Example split_ex1 :
  strings.Split "-test.coverprofile=a=b" "=" = ["-test.coverprofile"; "a"; "b"].
Proof. reflexivity. Qed.

Example split_ex2 : strings.Split "a===b" "==" = ["a"; "=b"].
Proof. reflexivity. Qed.

Example split_ex3 :
  strings.Split "abc" "=" = ["abc"] /\ strings.Split "" "=" = [""]
  /\ strings.Split "a=" "=" = ["a"; ""].
Proof. repeat split. Qed.

Example findArg_ex1 :
  findArg_in "test.coverprofile"
    ["prog"; "-test.v"; "-test.coverprofile=c=1.out"; "-test.coverprofile=z"]
  = "c=1.out".
Proof. reflexivity. Qed.

Lemma prefix_eq_sign (a : ascii) (s : string) :
  String.prefix "=" (String a s) = Ascii.eqb a "="%char.
Proof.
  cbn [String.prefix]. destruct (ascii_dec "=" a) as [E | E].
  - subst a. destruct s; reflexivity.
  - destruct (Ascii.eqb_spec a "="%char) as [E' | _]; [congruence | reflexivity].
Qed.

Lemma split_from_cons (sep : string) (k : nat) (s : string) :
  exists h t, strings.split_from sep k s = h :: t.
Proof.
  revert k. induction s as [| a s IH]; intros k.
  - simpl. eauto.
  - cbn [strings.split_from]. destruct k as [| k].
    + destruct (String.prefix sep (String a s)); [eauto |].
      destruct (strings.split_from sep 0 s); eauto.
    + apply IH.
Qed.

Lemma split_eq_cons (a : ascii) (s : string) :
  strings.split_from "=" 0 (String a s) =
  if Ascii.eqb a "="%char then "" :: strings.split_from "=" 0 s
  else match strings.split_from "=" 0 s with
       | h :: t => String a h :: t
       | [] => [String a ""]
       end.
Proof.
  cbn [strings.split_from]. rewrite prefix_eq_sign. reflexivity.
Qed.

Lemma split_eq_tail (s : string) :
  List.tl (strings.split_from "=" 0 s) =
  match after_first "="%char s with
  | Some v => strings.split_from "=" 0 v
  | None => []
  end.
Proof.
  induction s as [| a s IH]; [reflexivity |].
  rewrite split_eq_cons. simpl after_first.
  destruct (Ascii.eqb a "="%char); [reflexivity |].
  destruct (split_from_cons "=" 0 s) as (h & t & E).
  rewrite E in *. exact IH.
Qed.

Lemma concat_cons_cons (sep x y : string) (l : list string) :
  String.concat sep (x :: y :: l) = x ++ sep ++ String.concat sep (y :: l).
Proof. reflexivity. Qed.

Lemma join_split_eq (s : string) :
  String.concat "=" (strings.split_from "=" 0 s) = s.
Proof.
  induction s as [| a s IH]; [reflexivity |].
  rewrite split_eq_cons.
  destruct (split_from_cons "=" 0 s) as (h & t & E). rewrite E in *.
  destruct (Ascii.eqb_spec a "="%char) as [-> | _].
  - rewrite concat_cons_cons, IH. reflexivity.
  - destruct t as [| y t].
    + simpl in *. congruence.
    + rewrite concat_cons_cons in *.
      change (String a h ++ "=" ++ String.concat "=" (y :: t))
        with (String a (h ++ "=" ++ String.concat "=" (y :: t))).
      rewrite IH. reflexivity.
Qed.

(** The value the scanner cuts out of one argument. *)
Lemma value_of_arg (arg : string) :
  (let vs := strings.Split arg "=" in
   if Nat.leb (List.length vs) 1 then ""
   else strings.Join (slice_from_1 vs) "=") =
  match after_first "="%char arg with
  | Some v => v
  | None => ""
  end.
Proof.
  unfold strings.Split, strings.Join, slice_from_1. cbv zeta.
  pose proof (split_eq_tail arg) as T.
  destruct (split_from_cons "=" 0 arg) as (h & t & E). rewrite E in *.
  simpl in T. subst t.
  destruct (after_first "="%char arg) as [v |]; [| reflexivity].
  destruct (split_from_cons "=" 0 v) as (h' & t' & E').
  simpl List.tl. rewrite E'. simpl Nat.leb. rewrite <- E'. apply join_split_eq.
Qed.

Lemma findArg_in_spec (key : string) (args : list string) :
  findArg_in key args = findArg_spec key args.
Proof.
  unfold findArg_spec. induction args as [| arg rest IH]; [reflexivity |].
  cbn [findArg_in List.find]. unfold strings.HasPrefix, matches in *.
  destruct (String.prefix ("-" ++ key) arg); [apply value_of_arg | exact IH].
Qed.

Lemma prefix_app (s t : string) : String.prefix s (s ++ t) = true.
Proof.
  induction s as [| a s IH]; [destruct t; reflexivity |].
  cbn [String.prefix String.append]. destruct (ascii_dec a a); [exact IH | congruence].
Qed.

Lemma after_first_app (c : ascii) (pre v : string) :
  after_first c pre = None ->
  after_first c (pre ++ String c v) = Some v.
Proof.
  induction pre as [| a pre IH]; simpl.
  - intros _. rewrite Ascii.eqb_refl. reflexivity.
  - destruct (Ascii.eqb a c); [discriminate | exact IH].
Qed.

(** C10. For every key and every argument list the scanner returns the text
    after the first equals sign (later ones kept) of the first argument
    that begins with a dash followed by the key, and the empty string when
    that argument has no equals sign or when no argument matches; an
    argument whose name only extends the key matches, and the double-dash
    form of a flag name does not. *)
Theorem findArg_first_match_value (p : Proc) (key : string) :
  findArg p key = findArg_spec key (os_Args p) /\
  (forall pre v : string,
      after_first "="%char pre = None ->
      after_first "="%char (pre ++ "=" ++ v) = Some v) /\
  (forall rest : string, matches key ("-" ++ key ++ rest) = true) /\
  (forall rest : string,
      flag_name key = true -> matches key ("--" ++ key ++ rest) = false).
Proof.
  split; [apply findArg_in_spec |].
  split; [intros pre v H; apply (after_first_app _ _ v H) |].
  split.
  - intros rest. unfold matches.
    change ("-" ++ key ++ rest) with (("-" ++ key) ++ rest). apply prefix_app.
  - intros rest H. unfold matches. destruct key as [| a k]; [discriminate |].
    cbn [String.prefix String.append flag_name] in *.
    destruct (ascii_dec "-" "-") as [_ | N]; [| congruence].
    destruct (ascii_dec a "-") as [-> | _]; [discriminate | reflexivity].
Qed.

Lemma findArg_first_match_value_witness :
  flag_name "test.coverprofile" = true /\
  matches "test.coverprofile" "--test.coverprofile=v" = false /\
  after_first "="%char "-test.coverprofile=a=b" = Some "a=b".
Proof.
  split; [reflexivity |]. split.
  - apply (proj2 (proj2 (proj2
      (findArg_first_match_value (Sim.linux [] []) "test.coverprofile"))) "=v").
    reflexivity.
  - apply (proj1 (proj2
      (findArg_first_match_value (Sim.linux [] []) "test.coverprofile"))
      "-test.coverprofile" "a=b").
    reflexivity.
Defined.

Example findArg_extends_key :
  findArg (Sim.linux ["t"; "-test.coverprofileX=v"] []) "test.coverprofile" = "v".
Proof. reflexivity. Qed.

Example findArg_double_dash :
  findArg (Sim.linux ["t"; "--test.coverprofile=v"] []) "test.coverprofile" = "".
Proof. reflexivity. Qed.

Example findArg_first_match_without_value :
  findArg (Sim.linux ["t"; "-test.coverprofile"; "-test.coverprofile=v"] [])
          "test.coverprofile" = "".
Proof. reflexivity. Qed.

(** ** The raw coverage directory *)



(** ** Command *)

Lemma delveOpts_length (b : Exe) :
  Nat.ltb 0 (List.length (delveOpts b)) = negb (match delveOpts b with [] => true | _ => false end).
Proof. destruct (delveOpts b); reflexivity. Qed.

(** C3, as amended. With debug options the invocation runs the debugger
    with [exec], the fixed pair [--log-dest /dev/null], the configured
    options, the path of the built executable, the separator and then the
    given arguments unchanged; without them it runs the built executable on
    the given arguments. *)
Theorem Command_invocation (p : Proc) (b : Exe) (args : list string) :
  (delveOpts b <> [] ->
   cmd_Path (Command p b args) = dlvExe p /\
   cmd_Args (Command p b args)
   = (dlvExe p :: "exec" :: "--log-dest" :: "/dev/null"
        :: delveOpts b ++ [Path b; "--"] ++ args)%list) /\
  (delveOpts b = [] ->
   cmd_Path (Command p b args) = Path b /\
   cmd_Args (Command p b args) = Path b :: args).
Proof.
  unfold Command. rewrite delveOpts_length.
  destruct (delveOpts b) as [| o opts] eqn:E; split; intros H; try congruence.
  - split; reflexivity.
  - split; [reflexivity |]. cbn. rewrite <- !app_assoc. reflexivity.
Qed.

Lemma Command_invocation_witness :
  cmd_Args (Command (Sim.linux [] [])
              (Debug ["--headless"; "-l"; "localhost:2345"] Sim.handle) ["1"; "3"])
  = ["dlv"; "exec"; "--log-dest"; "/dev/null"; "--headless"; "-l";
     "localhost:2345"; "/tmp/gotestexe1/add"; "--"; "1"; "3"] /\
  cmd_Args (Command (Sim.linux [] []) Sim.handle ["1"; "3"])
  = ["/tmp/gotestexe1/add"; "1"; "3"].
Proof.
  split.
  - apply (proj1 (Command_invocation (Sim.linux [] [])
                    (Debug ["--headless"; "-l"; "localhost:2345"] Sim.handle)
                    ["1"; "3"])).
    simpl. discriminate.
  - apply (proj2 (Command_invocation (Sim.linux [] []) Sim.handle ["1"; "3"])).
    reflexivity.
Defined.

(** C3, as stated, fails: with one debug option the argument vector is not
    the debugger, [exec], the options, the path, the separator and the
    arguments, because two fixed arguments follow [exec]. *)
Lemma Command_debug_has_log_dest :
  let p := Sim.linux [] [] in
  let b := Debug ["--headless"] Sim.handle in
  let args := ["1"; "3"] in
  delveOpts b <> [] /\
  cmd_Args (Command p b args)
  <> (dlvExe p :: "exec" :: delveOpts b ++ [Path b; "--"] ++ args)%list /\
  cmd_Args (Command p b args)
  = ["dlv"; "exec"; "--log-dest"; "/dev/null"; "--headless";
     "/tmp/gotestexe1/add"; "--"; "1"; "3"].
Proof.
  cbv zeta. split; [simpl; discriminate |].
  split; [vm_compute; discriminate | reflexivity].
Qed.

(** C4. Whatever the handle and the arguments, debugger or not, the
    environment of the invocation is the environment of the process
    followed by the entry GOCOVERDIR=<the private coverage directory>. *)
Theorem Command_sets_GOCOVERDIR (p : Proc) (b : Exe) (args : list string) :
  In ("GOCOVERDIR=" ++ CoverageDir b) (cmd_Env (Command p b args)) /\
  cmd_Env (Command p b args)
  = (os_Environ p ++ [("GOCOVERDIR=" ++ CoverageDir b)%string])%list.
Proof.
  assert (E : cmd_Env (Command p b args)
              = (os_Environ p ++ [("GOCOVERDIR=" ++ CoverageDir b)%string])%list)
    by reflexivity.
  split; [| exact E].
  rewrite E. apply in_or_app. right. left. reflexivity.
Qed.

Example Command_env_debug :
  cmd_Env (Command (Sim.linux [] ["HOME=/root"; "GOCOVERDIR=/elsewhere"])
             (Debug ["--headless"] Sim.handle) ["1"])
  = ["HOME=/root"; "GOCOVERDIR=/elsewhere"; "GOCOVERDIR=/tmp/gotestexe1/.coverage"].
Proof. reflexivity. Qed.

(** ** Build *)

Ltac answer_step :=
  match goal with
  | |- context [os_answer ?os ?e ?s] =>
      let x := fresh "x" in
      let s' := fresh "s" in
      destruct (os_answer os e s) as [x s'];
      repeat match goal with
             | y : (_ * _)%type |- _ => destruct y
             end;
      cbn [run bind call fst snd]
  end.

Ltac error_case :=
  match goal with
  | |- context [match ?err with Some _ => _ | None => _ end] =>
      is_var err; destruct err; cbn [run bind call fst snd]
  end.

Ltac run_through := repeat (answer_step || error_case).

Lemma in_singleton (A : Type) (x y : A) : In x [y] -> x = y.
Proof. intros [H | []]. symmetry. exact H. Qed.

(** C8, as amended. [Build] fails in four cases and in no other: the go
    tool is not on the search path (the message names the tool), the
    temporary root or the coverage directory cannot be made (the error of
    the operating system is returned as it is), or the build exits
    non-zero (the message holds its combined output); when none of these
    happens it returns a handle and no error. *)
Theorem Build_outcomes (os : OS) (p : Proc) (exeName : string)
        (opts : list Option) (s : os_state os) :
  let r := run os (Build p exeName opts) s in
  let t := trace_of r in
  (forall m, In m (lookup_failures t) ->
             result_of r = (None, Some ("cannot find go tool: " ++ m))) /\
  (forall m, In m (mkdir_failures t) -> result_of r = (None, Some m)) /\
  (forall out, In out (failed_outputs t) ->
               result_of r = (None, Some ("go build: " ++ out))) /\
  (lookup_failures t = [] -> mkdir_failures t = [] -> failed_outputs t = [] ->
   exists exe, result_of r = (Some exe, None)).
Proof.
  unfold Build, goTool, result_of, trace_of. cbn [run bind call].
  run_through; cbn;
    (repeat split;
     [ intros m' H | intros m' H | intros m' H | intros H1 H2 H3 ]);
    try contradiction; try discriminate;
    try (apply in_singleton in H; subst; reflexivity).
  eexists. reflexivity.
Qed.

Lemma Build_outcomes_witness :
  result_of (run (Sim.os Sim.no_go) (Build (Sim.linux [] []) "add" []) 0)
  = (None, Some "cannot find go tool: exec: go: executable file not found in $PATH") /\
  result_of (run (Sim.os Sim.no_tempdir) (Build (Sim.linux [] []) "add" []) 0)
  = (None, Some "mkdir /tmp/gotestexe1: permission denied") /\
  result_of (run (Sim.os Sim.failing_tool) (Build (Sim.linux [] []) "add" []) 0)
  = (None, Some "go build: main.go:3:1: syntax error") /\
  exists exe, result_of (run (Sim.os Sim.fine) (Build (Sim.linux [] []) "add" []) 0)
              = (Some exe, None).
Proof.
  split; [| split; [| split]].
  - apply (proj1 (Build_outcomes (Sim.os Sim.no_go) (Sim.linux [] []) "add" [] 0)).
    left. reflexivity.
  - apply (proj1 (proj2 (Build_outcomes (Sim.os Sim.no_tempdir) (Sim.linux [] []) "add" [] 0))).
    left. reflexivity.
  - apply (proj1 (proj2 (proj2
      (Build_outcomes (Sim.os Sim.failing_tool) (Sim.linux [] []) "add" [] 0)))).
    left. reflexivity.
  - apply (proj2 (proj2 (proj2
      (Build_outcomes (Sim.os Sim.fine) (Sim.linux [] []) "add" [] 0))));
      reflexivity.
Defined.

(** C8, as stated, fails: the go tool is found and no build is run, let
    alone one that exits non-zero, and still [Build] returns an error and
    no handle, because the temporary root could not be made. *)
Lemma Build_fails_on_mkdir :
  let r := run (Sim.os Sim.no_tempdir) (Build (Sim.linux [] []) "add" []) 0 in
  result_of r = (None, Some "mkdir /tmp/gotestexe1: permission denied") /\
  lookup_failures (trace_of r) = [] /\
  commands_run (trace_of r) = [] /\
  failed_outputs (trace_of r) = [].
Proof. cbv zeta. repeat split. Qed.

Lemma apply_options_app (opts : list Option) (o : Option) (e : Exe) :
  apply_options (opts ++ [o]) e = o (apply_options opts e).
Proof. unfold apply_options. rewrite fold_left_app. reflexivity. Qed.

(** C7. Whatever the name and the options, a build that [Build] runs is
    the go tool on [build], then the extra flags the options left on the
    handle, then [-cover -o] and the path of the executable in the
    temporary root, then the package when the options left a non-empty
    one; it is run as soon as the tool is found and the directories are
    made. [Debug] adds the flag that turns optimisation off to the extra
    flags, [Package] sets the package, neither touches the other and
    [WriteCoverage] touches neither. *)
Theorem Build_invocation (os : OS) (p : Proc) (exeName : string)
        (opts : list Option) (s : os_state os) :
  let r := run os (Build p exeName opts) s in
  let t := trace_of r in
  let exe := apply_options opts zeroExe in
  (commands_run t = [] \/
   exists gotool dir : string,
     commands_run t =
     [exec_Command gotool
        ("build" :: extraArgs exe
           ++ ["-cover"; "-o"; filepath_Join p dir (Build_exeName p exeName)]
           ++ (if String.eqb (buildPkg exe) "" then [] else [buildPkg exe]))%list] /\
     forall b, result_of r = (Some b, None) ->
               binDir b = dir /\
               Path b = filepath_Join p dir (Build_exeName p exeName)) /\
  (lookup_failures t = [] -> mkdir_failures t = [] -> commands_run t <> []) /\
  (forall (dlvArgs : list string) (os' : list Option),
      extraArgs (apply_options (os' ++ [Debug dlvArgs]) zeroExe)
      = (extraArgs (apply_options os' zeroExe) ++ ["-gcflags=all=-N -l"])%list /\
      buildPkg (apply_options (os' ++ [Debug dlvArgs]) zeroExe)
      = buildPkg (apply_options os' zeroExe)) /\
  (forall (pkg : string) (os' : list Option),
      buildPkg (apply_options (os' ++ [Package pkg]) zeroExe) = pkg /\
      extraArgs (apply_options (os' ++ [Package pkg]) zeroExe)
      = extraArgs (apply_options os' zeroExe)) /\
  (forall (path : string) (os' : list Option),
      buildPkg (apply_options (os' ++ [WriteCoverage path]) zeroExe)
      = buildPkg (apply_options os' zeroExe) /\
      extraArgs (apply_options (os' ++ [WriteCoverage path]) zeroExe)
      = extraArgs (apply_options os' zeroExe)) /\
  buildPkg (apply_options [] zeroExe) = "" /\
  extraArgs (apply_options [] zeroExe) = [].
Proof.
  cbv zeta. split; [| split; [| split; [| split; [| split; [| split]]]]];
    try reflexivity.
  - unfold Build, goTool, result_of, trace_of, Build_args. cbn [run bind call].
    run_through; cbn [commands_run flat_map app snd fst]; auto;
      right; do 2 eexists;
      (split;
       [ cbn; destruct (String.eqb (buildPkg (apply_options opts zeroExe)) "");
         cbn; rewrite <- ?app_assoc; reflexivity
       | intros b H; try discriminate; inversion H; subst; cbn; auto ]).
  - unfold Build, goTool, trace_of. cbn [run bind call].
    run_through; cbn; intros H1 H2; try discriminate.
  - intros dlvArgs os'. rewrite apply_options_app. split; reflexivity.
  - intros pkg os'. rewrite apply_options_app. split; reflexivity.
  - intros path os'. rewrite apply_options_app. split; reflexivity.
Qed.

Lemma Build_invocation_witness :
  commands_run
    (trace_of (run (Sim.os Sim.fine)
                 (Build (Sim.linux [] []) "add"
                    [Debug ["--headless"]; Package "./example"]) 0))
  = [exec_Command "/usr/local/go/bin/go"
       ["build"; "-gcflags=all=-N -l"; "-cover"; "-o"; "/tmp/gotestexe1/add";
        "./example"]] /\
  commands_run
    (trace_of (run (Sim.os Sim.fine) (Build (Sim.linux [] []) "add" []) 0))
  <> [].
Proof.
  split; [reflexivity |].
  apply (proj1 (proj2
    (Build_invocation (Sim.os Sim.fine) (Sim.linux [] []) "add" [] 0)));
    reflexivity.
Defined.

(** C9. [Build] adds [.exe] to the name of the executable exactly when the
    operating system is called [window]: on [windows] the build that
    [Build] runs writes to the name as it is, [-o <root>/<name>], and the
    path of the handle ends in it, while the debugger that [Command] runs
    is [dlv.exe] and the tool that [Build] looks up is [go.exe]. *)
Theorem Build_exe_suffix_window (p : Proc) (exeName : string) :
  (GOOS p = "window" -> Build_exeName p exeName = exeName ++ ".exe") /\
  (GOOS p <> "window" -> Build_exeName p exeName = exeName) /\
  (GOOS p = "windows" ->
   Build_exeName p exeName = exeName /\
   dlvExe p = "dlv.exe" /\
   (forall (os : OS) (s : os_state os), exists x t,
       trace_of (run os (goTool p) s) = Called (exec_LookPath "go.exe") x :: t) /\
   (forall (os : OS) (opts : list Option) (s : os_state os) (b : Exe),
       result_of (run os (Build p exeName opts) s) = (Some b, None) ->
       Path b = filepath_Join p (binDir b) exeName)) /\
  (forall (os : OS) (opts : list Option) (s : os_state os) (b : Exe),
      result_of (run os (Build p exeName opts) s) = (Some b, None) ->
      Path b = filepath_Join p (binDir b) (Build_exeName p exeName)) /\
  (forall (os : OS) (opts : list Option) (s : os_state os),
      let t := trace_of (run os (Build p exeName opts) s) in
      let e := apply_options opts zeroExe in
      lookups t = ["go" ++ (if String.eqb (GOOS p) "windows" then ".exe" else "")] /\
      (lookup_failures t = [] -> mkdir_failures t = [] -> commands_run t <> []) /\
      (forall c, In c (commands_run t) ->
         exists gotool dir : string,
           tempdirs_made t = [dir] /\
           c = exec_Command gotool
                 ("build" :: extraArgs e
                    ++ ["-cover"; "-o";
                        filepath_Join p dir
                          (if String.eqb (GOOS p) "window"
                           then exeName ++ ".exe" else exeName)]
                    ++ (if String.eqb (buildPkg e) "" then [] else [buildPkg e]))%list)) /\
  (GOOS p = "windows" ->
   forall (os : OS) (opts : list Option) (s : os_state os),
     let t := trace_of (run os (Build p exeName opts) s) in
     let e := apply_options opts zeroExe in
     lookups t = ["go.exe"] /\
     (forall c, In c (commands_run t) ->
        exists gotool dir : string,
          tempdirs_made t = [dir] /\
          c = exec_Command gotool
                ("build" :: extraArgs e
                   ++ ["-cover"; "-o"; filepath_Join p dir exeName]
                   ++ (if String.eqb (buildPkg e) "" then [] else [buildPkg e]))%list)) /\
  (forall (b : Exe) (args : list string),
      delveOpts b <> [] ->
      cmd_Path (Command p b args)
      = (if String.eqb (GOOS p) "windows" then "dlv.exe" else "dlv") /\
      List.hd "" (cmd_Args (Command p b args))
      = (if String.eqb (GOOS p) "windows" then "dlv.exe" else "dlv")) /\
  (GOOS p = "windows" ->
   forall (b : Exe) (args : list string),
     delveOpts b <> [] ->
     cmd_Path (Command p b args) = "dlv.exe" /\
     List.hd "" (cmd_Args (Command p b args)) = "dlv.exe").
Proof.
  assert (P : forall (os : OS) (opts : list Option) (s : os_state os) (b : Exe),
             result_of (run os (Build p exeName opts) s) = (Some b, None) ->
             Path b = filepath_Join p (binDir b) (Build_exeName p exeName)).
  { intros os opts s b. unfold Build, goTool, result_of. cbn [run bind call].
    run_through; cbn [fst snd]; intros H; try discriminate.
    inversion H; subst. reflexivity. }
  assert (B : forall (os : OS) (opts : list Option) (s : os_state os),
             let t := trace_of (run os (Build p exeName opts) s) in
             let e := apply_options opts zeroExe in
             lookups t
             = ["go" ++ (if String.eqb (GOOS p) "windows" then ".exe" else "")] /\
             (lookup_failures t = [] -> mkdir_failures t = [] ->
              commands_run t <> []) /\
             (forall c, In c (commands_run t) ->
                exists gotool dir : string,
                  tempdirs_made t = [dir] /\
                  c = exec_Command gotool
                        ("build" :: extraArgs e
                           ++ ["-cover"; "-o";
                               filepath_Join p dir
                                 (if String.eqb (GOOS p) "window"
                                  then exeName ++ ".exe" else exeName)]
                           ++ (if String.eqb (buildPkg e) "" then []
                               else [buildPkg e]))%list)).
  { intros os opts s. cbv zeta.
    unfold Build, goTool, trace_of, Build_args, Build_exeName. cbn [run bind call].
    run_through;
      cbn [lookups lookup_failures mkdir_failures commands_run tempdirs_made
           flat_map app fst snd];
      (split; [reflexivity |]);
      (split; [intros H1 H2; try discriminate H1; try discriminate H2;
               try (intros X; discriminate X) |
               intros c H; try contradiction]);
      apply in_singleton in H; subst c; do 2 eexists; (split; [reflexivity |]);
      cbn [binDir set_binDir set_CoverageDir set_Path Path extraArgs buildPkg];
      destruct (String.eqb (buildPkg (apply_options opts zeroExe)) "");
      cbn [negb app]; rewrite <- ?app_assoc; reflexivity. }
  assert (D : forall (b : Exe) (args : list string),
             delveOpts b <> [] ->
             cmd_Path (Command p b args)
             = (if String.eqb (GOOS p) "windows" then "dlv.exe" else "dlv") /\
             List.hd "" (cmd_Args (Command p b args))
             = (if String.eqb (GOOS p) "windows" then "dlv.exe" else "dlv")).
  { intros b args N. unfold Command, dlvExe.
    destruct (delveOpts b) as [| o l]; [contradiction |].
    cbn [List.length Nat.ltb Nat.leb].
    destruct (String.eqb (GOOS p) "windows"); split; reflexivity. }
  split; [| split; [| split; [| split; [exact P |
    split; [exact B | split; [| split; [exact D |]]]]]]].
  - intros E. unfold Build_exeName. rewrite E. reflexivity.
  - intros E. unfold Build_exeName.
    destruct (String.eqb_spec (GOOS p) "window"); [contradiction | reflexivity].
  - intros E. unfold Build_exeName in *. rewrite E in *.
    cbn [String.eqb Ascii.eqb Bool.eqb] in *.
    split; [reflexivity |]. split; [unfold dlvExe; rewrite E; reflexivity |]. split.
    + intros os s. unfold goTool, trace_of. rewrite E. cbn [run bind call String.eqb].
      cbn. destruct (os_answer os (exec_LookPath "go.exe") s) as [[g [m |]] s1];
        cbn; eauto.
    + exact P.
  - intros E os opts s. cbv zeta.
    destruct (B os opts s) as (B1 & _ & B3). rewrite E in B1, B3.
    cbn [String.eqb Ascii.eqb Bool.eqb] in B1, B3. split; [exact B1 | exact B3].
  - intros E b args N. destruct (D b args N) as (D1 & D2). rewrite E in D1, D2.
    cbn [String.eqb Ascii.eqb Bool.eqb] in D1, D2. split; assumption.
Qed.

Lemma Build_exe_suffix_window_witness :
  Build_exeName (Sim.windows [] []) "add" = "add" /\
  dlvExe (Sim.windows [] []) = "dlv.exe" /\
  Build_exeName {| GOOS := "window"; os_Args := []; os_Environ := [];
                   filepath_Join := fun a b => a ++ "/" ++ b |} "add" = "add.exe" /\
  Build_exeName (Sim.linux [] []) "add" = "add" /\
  (exists b,
      result_of (run (Sim.os Sim.fine) (Build (Sim.windows [] []) "add" []) 0)
      = (Some b, None) /\
      Path b = "/tmp/gotestexe1\add") /\
  lookups (trace_of (run (Sim.os Sim.fine) (Build (Sim.windows [] []) "add" []) 0))
  = ["go.exe"] /\
  (exists gotool dir : string,
      tempdirs_made
        (trace_of (run (Sim.os Sim.fine) (Build (Sim.windows [] []) "add" []) 0))
      = [dir] /\
      exec_Command "/usr/local/go/bin/go.exe"
        ["build"; "-cover"; "-o"; "/tmp/gotestexe1\add"]
      = exec_Command gotool
          ["build"; "-cover"; "-o"; filepath_Join (Sim.windows [] []) dir "add"]) /\
  cmd_Path (Command (Sim.windows [] []) (Debug ["--headless"] Sim.handle) ["1"; "3"])
  = "dlv.exe" /\
  cmd_Path (Command (Sim.linux [] []) (Debug ["--headless"] Sim.handle) ["1"; "3"])
  = "dlv".
Proof.
  pose proof (Build_exe_suffix_window (Sim.windows [] []) "add") as W.
  destruct W as (_ & _ & W & _ & _ & WB & _ & WD). specialize (W eq_refl).
  destruct W as (W1 & W2 & _ & W4).
  split; [exact W1 |]. split; [exact W2 |]. split.
  { apply (proj1 (Build_exe_suffix_window
                    {| GOOS := "window"; os_Args := []; os_Environ := [];
                       filepath_Join := fun a b => a ++ "/" ++ b |} "add")).
    reflexivity. }
  split.
  { apply (proj1 (proj2 (Build_exe_suffix_window (Sim.linux [] []) "add"))).
    simpl. discriminate. }
  split.
  { eexists. split; [reflexivity |].
    apply (W4 (Sim.os Sim.fine) [] 0). reflexivity. }
  destruct (WB eq_refl (Sim.os Sim.fine) [] 0) as (L & C).
  split; [exact L |]. split.
  { apply (C (exec_Command "/usr/local/go/bin/go.exe"
                ["build"; "-cover"; "-o"; "/tmp/gotestexe1\add"])).
    left. reflexivity. }
  split.
  { apply (proj1 (WD eq_refl (Debug ["--headless"] Sim.handle) ["1"; "3"]
                    ltac:(simpl; discriminate))). }
  apply (proj1 (proj1 (proj2 (proj2 (proj2 (proj2 (proj2 (proj2
           (Build_exe_suffix_window (Sim.linux [] []) "add")))))))
           (Debug ["--headless"] Sim.handle) ["1"; "3"]
           ltac:(simpl; discriminate))).
Defined.

Example Build_on_windows :
  result_of (run (Sim.os Sim.fine) (Build (Sim.windows [] []) "add" []) 0)
  = (Some {| Path := "/tmp/gotestexe1\add";
             CoverageDir := "/tmp/gotestexe1\.coverage";
             binDir := "/tmp/gotestexe1"; buildPkg := ""; extraArgs := [];
             overrideCovDir := ""; delveOpts := [] |}, None) /\
  lookup_failures
    (trace_of (run (Sim.os Sim.no_go) (Build (Sim.windows [] []) "add" []) 0))
  = ["exec: go.exe: executable file not found in $PATH"].
Proof. split; reflexivity. Qed.

(** ** Finish *)

Lemma Finish_run (os : OS) (p : Proc) (b : Exe) (s : os_state os) :
  run os (Finish p b) s =
  let '(r, s1, t1) := run os (Finish_body p b) s in
  let (x, s2) := os_answer os (os_RemoveAll (binDir b)) s1 in
  (r, s2, (t1 ++ [Called (os_RemoveAll (binDir b)) x])%list).
Proof.
  unfold Finish. rewrite run_bind.
  destruct (run os (Finish_body p b) s) as [[r s1] t1]. cbn [run bind call].
  destruct (os_answer os (os_RemoveAll (binDir b)) s1) as [x s2]. reflexivity.
Qed.

(** C2. Whatever the operating system answers and whatever the body of
    [Finish] returns, the last thing [Finish] does is to ask for the
    removal of the temporary root, and it then returns what the body
    returned: no return path skips the removal. *)
Theorem Finish_removes_root (os : OS) (p : Proc) (b : Exe) (s : os_state os) :
  let r := run os (Finish p b) s in
  let body := run os (Finish_body p b) s in
  result_of r = result_of body /\
  In (binDir b) (trees_removed (trace_of r)) /\
  exists x : error,
    trace_of r = (trace_of body ++ [Called (os_RemoveAll (binDir b)) x])%list /\
    os_answer os (os_RemoveAll (binDir b)) (state_of body) = (x, state_of r).
Proof.
  cbv zeta. rewrite Finish_run. unfold result_of, trace_of, state_of.
  destruct (run os (Finish_body p b) s) as [[r s1] t1]. cbn [fst snd].
  destruct (os_answer os (os_RemoveAll (binDir b)) s1) as [x s2]. cbn [fst snd].
  split; [reflexivity |]. split.
  - unfold trees_removed. rewrite flat_map_app. apply in_or_app. right.
    left. reflexivity.
  - exists x. split; reflexivity.
Qed.

Example root_removed_when_merge_fails :
  let r := run (Sim.os Sim.failing_tool)
               (Finish (Sim.linux ["t"; "-test.coverprofile=c.out"] []) Sim.handle) 0 in
  result_of r = Some "go tool covdata: main.go:3:1: syntax error" /\
  trees_removed (trace_of r) = ["/tmp/gotestexe1"].
Proof. split; reflexivity. Qed.

Example root_removed_when_copy_fails :
  let r := run (Sim.os Sim.no_meta)
               (Finish (Sim.linux ["t"; "-test.gocoverdir=/cov"] []) Sim.handle) 0 in
  result_of r
  = Some "copying cov files to -test.gocoverdir /cov: open /cov/covmeta.1: permission denied" /\
  trees_removed (trace_of r) = ["/tmp/gotestexe1"].
Proof. split; reflexivity. Qed.

Example root_removed_when_nothing_is_configured :
  let r := run (Sim.os Sim.fine) (Finish (Sim.linux ["t"] []) Sim.handle) 0 in
  result_of r = Some ConfigurationError /\
  trees_removed (trace_of r) = ["/tmp/gotestexe1"].
Proof. split; reflexivity. Qed.

Lemma Finish_coverprofile_empty (p : Proc) (b : Exe) :
  Finish_coverprofile p b = "" <->
  overrideCovDir b = "" /\ findArg p "test.coverprofile" = "".
Proof.
  unfold Finish_coverprofile.
  destruct (String.eqb_spec (overrideCovDir b) "") as [E | E]; cbn [negb].
  - rewrite E. tauto.
  - tauto.
Qed.

Lemma findGoCoverDir_empty (p : Proc) :
  findGoCoverDir p = "" <->
  findArg p "test.gocoverdir" = "" /\ os_Getenv p "GOCOVERDIR" = "".
Proof.
  unfold findGoCoverDir.
  destruct (String.eqb_spec (findArg p "test.gocoverdir") "") as [E | E].
  - rewrite E. tauto.
  - tauto.
Qed.

(** The body of [Finish] returns the configuration error exactly when both
    destinations are empty. *)
Lemma Finish_body_configuration_error (os : OS) (p : Proc) (b : Exe)
      (s : os_state os) :
  result_of (run os (Finish_body p b) s) = Some ConfigurationError <->
  Finish_coverprofile p b = "" /\ findGoCoverDir p = "".
Proof.
  unfold Finish_body, Finish_copy, mergeGoCover, goTool, copyAll, result_of.
  cbn [run bind call].
  destruct (String.eqb_spec (Finish_coverprofile p b) "") as [C | C];
    destruct (String.eqb_spec (findGoCoverDir p) "") as [G | G];
    cbn [negb andb run bind call];
    run_through;
    rewrite ?run_bind;
    repeat match goal with
           | |- context [run ?os (copyEntries ?p ?a ?b ?l) ?s] =>
               destruct (run os (copyEntries p a b l) s) as [[[m |] ?] ?]
           end;
    cbn [run bind call fst snd];
    (split; [intros H | intros [H1 H2]]);
    try congruence; try discriminate H; auto.
Qed.

Lemma findArg_no_match (p : Proc) (key : string) :
  (forall arg, In arg (os_Args p) -> matches key arg = false) ->
  findArg p key = "".
Proof.
  unfold findArg. rewrite findArg_in_spec. unfold findArg_spec. intros H.
  destruct (List.find (matches key) (os_Args p)) as [arg |] eqn:F; [| reflexivity].
  apply find_some in F. destruct F as [I M]. rewrite (H arg I) in M. discriminate.
Qed.

Example Finish_with_override_merges_to_it :
  commands_run
    (trace_of (run (Sim.os Sim.fine)
                 (Finish (Sim.linux ["t"; "-test.coverprofile=c.out"] [])
                         (WriteCoverage "override.out" Sim.handle)) 0))
  = [exec_Command "/usr/local/go/bin/go"
       ["tool"; "covdata"; "textfmt"; "-i"; "/tmp/gotestexe1/.coverage";
        "-o"; "override.out"]].
Proof. reflexivity. Qed.

Example Finish_other_errors :
  result_of (run (Sim.os Sim.failing_tool)
               (Finish (Sim.linux ["t"; "-test.coverprofile=c.out"] []) Sim.handle) 0)
  = Some "go tool covdata: main.go:3:1: syntax error" /\
  result_of (run (Sim.os Sim.no_mkdir)
               (Finish (Sim.linux ["t"] ["GOCOVERDIR=/cov"]) Sim.handle) 0)
  = Some "mkdir GOCOVERDIR: mkdir /cov: permission denied".
Proof. split; reflexivity. Qed.

(** The loop over the entries runs no subprocess and lists no directory;
    when it returns no error it has copied the entries that are not
    directories, each under its own name, in order. *)
Lemma copyEntries_trace (os : OS) (p : Proc) (src dst : string)
      (entries : list DirEntry) :
  forall (s : os_state os) (t2 : list event),
    let r := run os (copyEntries p src dst entries) s in
    commands_run (trace_of r) = [] /\
    failed_outputs (trace_of r) = [] /\
    listings (trace_of r) = [] /\
    (result_of r = None ->
     copies (trace_of r ++ t2)
     = (map (copy_of p src dst) (filter is_file entries) ++ copies t2)%list).
Proof.
  unfold result_of, trace_of.
  induction entries as [| entry rest IH]; intros s t2; cbv zeta.
  - cbn. auto.
  - cbn [copyEntries run bind call]. unfold copyFile, is_file.
    answer_step. destruct (entry_IsDir entry) eqn:D; cbn [run bind call].
    + specialize (IH s0 t2). cbv zeta in IH.
      destruct (run os (copyEntries p src dst rest) s0) as [[r sr] tr].
      cbn [fst snd] in *. cbn [filter negb]. rewrite D. cbn [negb].
      exact IH.
    + run_through;
        try (cbn; repeat split; intros H; discriminate H).
      match goal with
      | |- context [run os (copyEntries p src dst rest) ?s'] =>
          specialize (IH s' t2); cbv zeta in IH;
          destruct (run os (copyEntries p src dst rest) s') as [[r sr] tr]
      end.
      cbn [fst snd] in *. destruct IH as (I1 & I2 & I3 & I4).
      repeat split.
      * exact I1.
      * exact I2.
      * exact I3.
      * intros H. cbn [filter]. rewrite D. cbn [negb map app].
        cbn [copies as_create as_open as_copy fst snd app].
        rewrite !Nat.eqb_refl. cbn [andb]. rewrite (I4 H). reflexivity.
Qed.

Lemma Finish_body_populates (os : OS) (p : Proc) (b : Exe) (s : os_state os)
      (t2 : list event) :
  let r := run os (Finish_body p b) s in
  Finish_coverprofile p b <> "" ->
  findGoCoverDir p <> "" ->
  result_of r = None ->
  exists (gotool : string) (entries : list DirEntry),
    commands_run (trace_of r)
    = [exec_Command gotool
         ["tool"; "covdata"; "textfmt"; "-i"; CoverageDir b;
          "-o"; Finish_coverprofile p b]] /\
    failed_outputs (trace_of r) = [] /\
    listings (trace_of r) = [(CoverageDir b, entries)] /\
    copies (trace_of r ++ t2)
    = (map (copy_of p (CoverageDir b) (findGoCoverDir p)) (filter is_file entries)
         ++ copies t2)%list.
Proof.
  cbv zeta. intros C G.
  unfold Finish_body, Finish_copy, mergeGoCover, goTool, copyAll, result_of, trace_of.
  cbn [run bind call].
  destruct (String.eqb_spec (Finish_coverprofile p b) "") as [C' | _];
    [contradiction |].
  destruct (String.eqb_spec (findGoCoverDir p) "") as [G' | _];
    [contradiction |].
  cbn [negb andb run bind call].
  run_through; try (cbn [fst snd]; intros H; discriminate H).
  rewrite !run_bind.
  match goal with
  | |- context [run os (copyEntries p ?a ?d ?l) ?s'] =>
      pose proof (copyEntries_trace os p a d l s' t2) as T; cbv zeta in T;
      unfold result_of, trace_of in T;
      destruct (run os (copyEntries p a d l) s') as [[[m |] sr] tr]
  end; cbn [run bind call fst snd] in *; intros H; try discriminate H.
  destruct T as (T1 & T2 & T3 & T4).
  rewrite !app_nil_r.
  do 2 eexists. repeat split.
  - cbn [commands_run flat_map app]. fold (commands_run tr).
    rewrite T1. reflexivity.
  - cbn [failed_outputs flat_map app fst snd]. fold (failed_outputs tr).
    rewrite T2. reflexivity.
  - cbn [listings flat_map app fst snd]. fold (listings tr).
    rewrite T3. reflexivity.
  - cbn [copies as_create app]. apply T4. reflexivity.
Qed.

(** C5, as amended. When a profile destination and a raw coverage
    directory are both configured and [Finish] returns no error (the merge,
    the making of the destination directory, the listing and every copy
    succeeded), it has run one subprocess, the merge of the private
    coverage directory into the profile destination, which exited zero,
    and it has copied exactly the entries of the private coverage
    directory that are not directories, in order, each under its own name
    into the raw coverage directory. *)
Theorem Finish_populates_both (os : OS) (p : Proc) (b : Exe) (s : os_state os) :
  let r := run os (Finish p b) s in
  Finish_coverprofile p b <> "" ->
  findGoCoverDir p <> "" ->
  result_of r = None ->
  exists (gotool : string) (entries : list DirEntry),
    commands_run (trace_of r)
    = [exec_Command gotool
         ["tool"; "covdata"; "textfmt"; "-i"; CoverageDir b;
          "-o"; Finish_coverprofile p b]] /\
    failed_outputs (trace_of r) = [] /\
    listings (trace_of r) = [(CoverageDir b, entries)] /\
    copies (trace_of r)
    = map (copy_of p (CoverageDir b) (findGoCoverDir p)) (filter is_file entries).
Proof.
  cbv zeta. intros C G. rewrite Finish_run.
  destruct (os_answer os (os_RemoveAll (binDir b))
              (state_of (run os (Finish_body p b) s))) as [x s2] eqn:A.
  pose proof (Finish_body_populates os p b s [Called (os_RemoveAll (binDir b)) x] C G)
    as B.
  cbv zeta in B. unfold result_of, trace_of, state_of in *.
  destruct (run os (Finish_body p b) s) as [[r s1] t1]. cbn [fst snd] in *.
  rewrite A. cbn [fst snd]. intros H.
  destruct (B H) as (gotool & entries & B1 & B2 & B3 & B4).
  exists gotool, entries. repeat split.
  - unfold commands_run in *. rewrite flat_map_app, B1. reflexivity.
  - unfold failed_outputs in *. rewrite flat_map_app, B2. reflexivity.
  - unfold listings in *. rewrite flat_map_app, B3. reflexivity.
  - rewrite B4. cbn [copies as_create]. apply app_nil_r.
Qed.

Lemma Finish_populates_both_witness :
  exists (gotool : string) (entries : list DirEntry),
    let p := Sim.linux ["t"; "-test.coverprofile=c.out"; "-test.gocoverdir=/cov"] [] in
    let r := run (Sim.os Sim.fine) (Finish p Sim.handle) 0 in
    commands_run (trace_of r)
    = [exec_Command gotool
         ["tool"; "covdata"; "textfmt"; "-i"; CoverageDir Sim.handle;
          "-o"; Finish_coverprofile p Sim.handle]] /\
    failed_outputs (trace_of r) = [] /\
    listings (trace_of r) = [(CoverageDir Sim.handle, entries)] /\
    copies (trace_of r)
    = map (copy_of p (CoverageDir Sim.handle) (findGoCoverDir p))
          (filter is_file entries).
Proof.
  apply (Finish_populates_both (Sim.os Sim.fine)
           (Sim.linux ["t"; "-test.coverprofile=c.out"; "-test.gocoverdir=/cov"] [])
           Sim.handle 0).
  - vm_compute. discriminate.
  - vm_compute. discriminate.
  - reflexivity.
Defined.

Example Finish_copies_the_files :
  copies (trace_of (run (Sim.os Sim.fine)
            (Finish (Sim.linux ["t"; "-test.coverprofile=c.out"; "-test.gocoverdir=/cov"] [])
                    Sim.handle) 0))
  = [("/tmp/gotestexe1/.coverage/covmeta.1", "/cov/covmeta.1");
     ("/tmp/gotestexe1/.coverage/covcounters.1", "/cov/covcounters.1")].
Proof. reflexivity. Qed.

(** C5, as stated, fails: both destinations are configured and the merge
    exits zero, but the first coverage file cannot be created in the raw
    coverage directory; [Finish] returns that error and copies nothing,
    though two entries of the private coverage directory are files. *)
Lemma Finish_merge_succeeds_copy_fails :
  let p := Sim.linux ["t"; "-test.coverprofile=c.out"; "-test.gocoverdir=/cov"] [] in
  let r := run (Sim.os Sim.no_meta) (Finish p Sim.handle) 0 in
  Finish_coverprofile p Sim.handle <> "" /\
  findGoCoverDir p <> "" /\
  commands_run (trace_of r)
  = [exec_Command "/usr/local/go/bin/go"
       ["tool"; "covdata"; "textfmt"; "-i"; "/tmp/gotestexe1/.coverage";
        "-o"; "c.out"]] /\
  failed_outputs (trace_of r) = [] /\
  listings (trace_of r) = [("/tmp/gotestexe1/.coverage", Sim.entries)] /\
  copies (trace_of r) = [] /\
  map (copy_of p (CoverageDir Sim.handle) (findGoCoverDir p))
      (filter is_file Sim.entries)
  = [("/tmp/gotestexe1/.coverage/covmeta.1", "/cov/covmeta.1");
     ("/tmp/gotestexe1/.coverage/covcounters.1", "/cov/covcounters.1")] /\
  copies (trace_of r)
  <> map (copy_of p (CoverageDir Sim.handle) (findGoCoverDir p))
         (filter is_file Sim.entries).
Proof.
  cbv zeta.
  split; [vm_compute; discriminate |].
  split; [vm_compute; discriminate |].
  repeat split; try reflexivity.
  vm_compute. discriminate.
Qed.

(** * Further properties *)

(** ** Copying one file *)

(** X1. [copyFile] returns no error exactly when the destination was
    created, the source opened and the bytes copied, each without error;
    otherwise it returns the message of the one call that failed, as it
    is, and nothing was copied. What closing the files answers does not
    matter. *)
Theorem copyFile_outcome (os : OS) (src dst : string) (s : os_state os) :
  let r := run os (copyFile src dst) s in
  (copy_failures (trace_of r) = [] ->
   result_of r = None /\ copies (trace_of r) = [(src, dst)]) /\
  (forall m, In m (copy_failures (trace_of r)) ->
             result_of r = Some m /\ copy_failures (trace_of r) = [m] /\
             copies (trace_of r) = []).
Proof.
  unfold copyFile, result_of, trace_of. cbn [run bind call].
  run_through;
    try match goal with
        | |- context [Called (io_Copy _ _) (_, ?e)] => destruct e
        end;
    cbn [fst snd];
    (split; [intros H | intros m' H]);
    cbn in H; try discriminate H; try contradiction;
    try (apply in_singleton in H; subst m'; cbn; auto).
  cbn [copies as_create as_open as_copy fst snd].
  rewrite !Nat.eqb_refl. cbn. auto.
Qed.

Lemma copyFile_outcome_witness :
  result_of (run (Sim.os Sim.fine) (copyFile "/a/f" "/b/f") 0) = None /\
  result_of (run (Sim.os Sim.no_meta) (copyFile "/a/covmeta.1" "/cov/covmeta.1") 0)
  = Some "open /cov/covmeta.1: permission denied".
Proof.
  split.
  - apply (proj1 (copyFile_outcome (Sim.os Sim.fine) "/a/f" "/b/f" 0)).
    reflexivity.
  - apply (proj2 (copyFile_outcome (Sim.os Sim.no_meta)
                    "/a/covmeta.1" "/cov/covmeta.1" 0)).
    left. reflexivity.
Defined.

(** X2. [copyFile] creates the destination before it opens the source:
    when the source cannot be opened, the destination has been created
    all the same (and is closed again), and the error of the opening is
    returned; when the destination cannot be created, the source is not
    opened at all. *)
Theorem copyFile_creates_first (os : OS) (src dst : string) (s : os_state os) :
  let r := run os (copyFile src dst) s in
  creations (trace_of r) = [dst] /\
  (openings (trace_of r) = [] \/ openings (trace_of r) = [src]) /\
  (forall m, In m (open_failures (trace_of r)) ->
             result_of r = Some m /\
             (exists out rest, trace_of r = Called (os_Create dst) (out, None) :: rest) /\
             still_open [] (trace_of r) = []) /\
  (openings (trace_of r) = [] ->
   exists m, result_of r = Some m /\ copy_failures (trace_of r) = [m]).
Proof.
  unfold copyFile, result_of, trace_of. cbn [run bind call].
  run_through;
    try match goal with
        | |- context [Called (io_Copy _ _) (_, ?e)] => destruct e
        end;
    cbn [fst snd]; cbn [creations openings flat_map app];
    (split; [reflexivity |]); (split; [auto |]);
    (split; [intros m' H | intros H]);
    cbn in H; try discriminate H; try contradiction;
    try (apply in_singleton in H; subst m');
    try (split; [reflexivity |]; split; [eauto |]);
    try (eexists; split; reflexivity).
  unfold still_open. cbn. rewrite Nat.eqb_refl. reflexivity.
Qed.

Lemma copyFile_creates_first_witness :
  result_of (run (Sim.os unreadable) (copyFile "/a/f" "/b/f") 0)
  = Some "open /a/f: no such file or directory" /\
  creations (trace_of (run (Sim.os unreadable) (copyFile "/a/f" "/b/f") 0)) = ["/b/f"] /\
  exists m, result_of
              (run (Sim.os Sim.no_meta) (copyFile "/a/covmeta.1" "/cov/covmeta.1") 0)
            = Some m.
Proof.
  split; [| split].
  - apply (proj1 (proj2 (proj2
      (copyFile_creates_first (Sim.os unreadable) "/a/f" "/b/f" 0)))).
    left. reflexivity.
  - reflexivity.
  - destruct (proj2 (proj2 (proj2
      (copyFile_creates_first (Sim.os Sim.no_meta)
         "/a/covmeta.1" "/cov/covmeta.1" 0))) eq_refl) as (m & H & _).
    exists m. exact H.
Defined.

(** ** Copying the entries of a directory *)

Lemma remove_first_head (f : File) (o : list File) :
  remove_first f (f :: o) = o.
Proof. cbn. rewrite Nat.eqb_refl. reflexivity. Qed.

(** Calls on files and log lines look nothing up, run nothing, make, list
    and remove no directory. *)
Lemma file_events_quiet (t : list event) :
  forallb is_file_event t = true ->
  lookups t = [] /\ lookup_failures t = [] /\ commands_run t = [] /\
  failed_outputs t = [] /\ mkdir_failures t = [] /\ dirs_asked t = [] /\
  tempdirs_asked t = [] /\ tempdirs_made t = [] /\ listings t = [] /\
  listings_asked t = [] /\ trees_removed t = [].
Proof.
  induction t as [| ev t IH]; intros H.
  - repeat split.
  - cbn [forallb] in H. apply andb_prop in H. destruct H as [E H].
    destruct (IH H) as (I1 & I2 & I3 & I4 & I5 & I6 & I7 & I8 & I9 & I10 & I11).
    destruct ev as [X e x]. destruct e; try discriminate E;
      cbn [lookups lookup_failures commands_run failed_outputs mkdir_failures
           dirs_asked tempdirs_asked tempdirs_made listings listings_asked
           trees_removed flat_map app];
      repeat split; assumption.
Qed.

(** The loop over the entries, whatever it returns: it only touches files;
    it has copied the first [k] of the entries that are not directories,
    all of them when it returns no error and fewer when it returns one,
    which is then the message of the one call that failed; and it leaves
    no file open. *)
Lemma copyEntries_shape (os : OS) (p : Proc) (src dst : string)
      (entries : list DirEntry) :
  forall (s : os_state os) (t2 : list event) (o : list File),
    let r := run os (copyEntries p src dst entries) s in
    forallb is_file_event (trace_of r) = true /\
    still_open o (trace_of r) = o /\
    exists k : nat,
      copies (trace_of r ++ t2)
      = (map (copy_of p src dst) (firstn k (filter is_file entries))
           ++ copies t2)%list /\
      match result_of r with
      | None => k = List.length (filter is_file entries)
                /\ copy_failures (trace_of r) = []
      | Some m => k < List.length (filter is_file entries)
                  /\ copy_failures (trace_of r) = [m]
      end.
Proof.
  unfold result_of, trace_of.
  induction entries as [| entry rest IH]; intros s t2 o; cbv zeta.
  - cbn. repeat split. exists 0. cbn. auto.
  - cbn [copyEntries run bind call]. unfold copyFile, is_file.
    answer_step. destruct (entry_IsDir entry) eqn:D; cbn [run bind call].
    + specialize (IH s0 t2 o). cbv zeta in IH.
      destruct (run os (copyEntries p src dst rest) s0) as [[r sr] tr].
      cbn [fst snd] in *. cbn [filter negb]. rewrite D. cbn [negb].
      destruct IH as (I1 & I2 & k & I3 & I4).
      split; [cbn; exact I1 |]. split; [exact I2 |]. exists k. split; assumption.
    + run_through;
        try (cbn [fst snd filter]; rewrite D; cbn [negb length];
             split; [reflexivity |]; split;
             [unfold still_open;
              cbn [fold_left track as_create as_open as_close fst snd];
              repeat rewrite remove_first_head; reflexivity |];
             exists 0; split; [reflexivity | split; [lia | reflexivity]]).
      match goal with
      | |- context [run os (copyEntries p src dst rest) ?s'] =>
          specialize (IH s' t2 o); cbv zeta in IH;
          destruct (run os (copyEntries p src dst rest) s') as [[r sr] tr]
      end.
      cbn [fst snd] in *. destruct IH as (I1 & I2 & k & I3 & I4).
      cbn [filter]. rewrite D. cbn [negb length].
      split; [cbn; exact I1 |]. split.
      * unfold still_open in *. cbn [fold_left track as_create as_open as_close fst snd].
        repeat rewrite remove_first_head. exact I2.
      * exists (S k). split.
        -- cbn [firstn map app copies as_create as_open as_copy fst snd].
           rewrite !Nat.eqb_refl. cbn [andb]. rewrite I3. reflexivity.
        -- unfold is_file in *.
           destruct r as [m |]; destruct I4 as [I4 I5]; split;
             try lia; cbn; exact I5.
Qed.

(** X3. [copyAll] lists the source directory once. When the listing
    fails it returns that error and creates no file. Otherwise the files
    it has copied are the first [k] entries of the listing that are not
    directories, in the order of the listing and each under its own
    name: all of them when it returns no error, and fewer when it returns
    one, which is the message of the first call that failed; a directory
    is never copied and the copying stops at the first failure. *)
Theorem copyAll_copies_a_prefix (os : OS) (p : Proc) (src dst : string)
        (s : os_state os) :
  let r := run os (copyAll p src dst) s in
  listings_asked (trace_of r) = [src] /\
  (listings (trace_of r) = [] ->
   exists m, result_of r = Some m /\ copy_failures (trace_of r) = [m] /\
             creations (trace_of r) = []) /\
  (forall entries, listings (trace_of r) = [(src, entries)] ->
     exists k : nat,
       copies (trace_of r)
       = map (copy_of p src dst) (firstn k (filter is_file entries)) /\
       match result_of r with
       | None => k = List.length (filter is_file entries)
                 /\ copy_failures (trace_of r) = []
       | Some m => k < List.length (filter is_file entries)
                   /\ copy_failures (trace_of r) = [m]
       end).
Proof.
  unfold copyAll, result_of, trace_of. cbn [run bind call].
  answer_step. error_case.
  - cbn. split; [reflexivity |]. split.
    + intros _. eexists. repeat split.
    + intros entries H. discriminate H.
  - match goal with
    | |- context [run os (copyEntries p src dst ?l) ?s'] =>
        pose proof (copyEntries_shape os p src dst l s' [] []) as T;
        cbv zeta in T; unfold result_of, trace_of in T;
        destruct (run os (copyEntries p src dst l) s') as [[r sr] tr]
    end.
    cbn [fst snd] in *. destruct T as (T1 & _ & k & T3 & T4).
    destruct (file_events_quiet tr T1)
      as (_ & _ & _ & _ & _ & _ & _ & _ & Q9 & Q10 & _).
    split; [| split].
    + cbn [listings_asked flat_map app]. fold (listings_asked tr).
      rewrite Q10. reflexivity.
    + cbn [listings flat_map app fst snd]. intros H. discriminate H.
    + cbn [listings flat_map app fst snd]. fold (listings tr). rewrite Q9.
      intros entries H. inversion H. subst entries. exists k. split.
      * cbn [copies as_create]. rewrite app_nil_r in T3. rewrite T3.
        apply app_nil_r.
      * destruct r; cbn [copy_failures flat_map app fst snd];
          fold (copy_failures tr); exact T4.
Qed.

Lemma copyAll_copies_a_prefix_witness :
  (exists m, result_of (run (Sim.os unlistable) (copyAll (Sim.linux [] []) "/c" "/cov") 0)
             = Some m) /\
  exists k : nat,
    copies (trace_of (run (Sim.os unreadable) (copyAll (Sim.linux [] []) "/c" "/cov") 0))
    = map (copy_of (Sim.linux [] []) "/c" "/cov") (firstn k (filter is_file Sim.entries)).
Proof.
  split.
  - destruct (proj1 (proj2 (copyAll_copies_a_prefix (Sim.os unlistable)
                              (Sim.linux [] []) "/c" "/cov" 0)) eq_refl)
      as (m & H & _).
    exists m. exact H.
  - destruct (proj2 (proj2 (copyAll_copies_a_prefix (Sim.os unreadable)
                              (Sim.linux [] []) "/c" "/cov" 0)) Sim.entries eq_refl)
      as (k & H & _).
    exists k. exact H.
Defined.

Example copyAll_stops_at_the_first_failure :
  let r := run (Sim.os Sim.no_meta) (copyAll (Sim.linux [] []) "/c" "/cov") 0 in
  result_of r = Some "open /cov/covmeta.1: permission denied" /\
  creations (trace_of r) = ["/cov/covmeta.1"] /\
  copies (trace_of r) = [].
Proof. repeat split. Qed.

(** ** Finish, further *)

Ltac finish_cases os p b :=
  unfold Finish, Finish_body, Finish_copy, mergeGoCover, goTool, copyAll,
    result_of, trace_of;
  cbn [run bind call];
  destruct (String.eqb_spec (Finish_coverprofile p b) "") as [C | C];
  destruct (String.eqb_spec (findGoCoverDir p) "") as [G | G];
  cbn [negb andb run bind call];
  run_through;
  rewrite ?run_bind;
  try match goal with
      | |- context [run os (copyEntries p ?a ?d ?l) ?s'] =>
          let T := fresh "T" in
          let r := fresh "r" in
          let sr := fresh "sr" in
          let tr := fresh "tr" in
          pose proof (copyEntries_shape os p a d l s') as T;
          cbv zeta in T; unfold result_of, trace_of in T;
          destruct (run os (copyEntries p a d l) s') as [[r sr] tr];
          cbn [fst snd] in T; destruct r; cbn [run bind call]
      end;
  run_through;
  cbn [fst snd];
  rewrite ?app_nil_r.

(** X4. [Finish] leaves no file open: whatever the operating system
    answers, every file it created or opened without error it has closed
    by the time it returns. *)
Theorem Finish_closes_every_file (os : OS) (p : Proc) (b : Exe) (s : os_state os) :
  still_open [] (trace_of (run os (Finish p b) s)) = [].
Proof.
  finish_cases os p b; unfold still_open in *;
    rewrite ?fold_left_app;
    cbn [fold_left track as_create as_open as_close fst snd];
    rewrite ?fold_left_app;
    try (destruct (T [] []) as (_ & T2 & _); rewrite T2);
    reflexivity.
Qed.

(** X5. The errors of [Finish]. A go tool that is not found, a merge that
    exits non-zero, a raw coverage directory that cannot be made and a
    listing, creation, opening or copy that fails each give their own
    message, built from what the operating system answered; when none of
    these happens [Finish] returns no error, unless nothing is
    configured. What closing a file or removing the temporary root
    answers never shows in the result. *)
Theorem Finish_outcomes (os : OS) (p : Proc) (b : Exe) (s : os_state os) :
  let r := run os (Finish p b) s in
  let t := trace_of r in
  (forall m, In m (lookup_failures t) ->
             result_of r = Some ("cannot find go tool: " ++ m)) /\
  (forall out, In out (failed_outputs t) ->
               result_of r = Some ("go tool covdata: " ++ out)) /\
  (forall m, In m (mkdir_failures t) ->
             result_of r = Some ("mkdir GOCOVERDIR: " ++ m)) /\
  (forall m, In m (copy_failures t) ->
             result_of r = Some ("copying cov files to -test.gocoverdir "
                                 ++ findGoCoverDir p ++ ": " ++ m)) /\
  (lookup_failures t = [] -> failed_outputs t = [] ->
   mkdir_failures t = [] -> copy_failures t = [] ->
   result_of r =
   if String.eqb (Finish_coverprofile p b) "" && String.eqb (findGoCoverDir p) ""
   then Some ConfigurationError else None).
Proof.
  cbv zeta.
  finish_cases os p b;
    try (destruct (T [] []) as (T1 & _ & k & _ & T4 & T5);
         destruct (file_events_quiet _ T1)
           as (_ & Q2 & _ & Q4 & Q5 & _));
    unfold lookup_failures, failed_outputs, mkdir_failures, copy_failures in *;
    cbn [flat_map app fst snd]; rewrite ?flat_map_app; cbn [flat_map app fst snd];
    rewrite ?Q2, ?Q4, ?Q5, ?T5; cbn [app];
    (split; [intros m' H | split; [intros m' H | split; [intros m' H |
       split; [intros m' H | intros H1 H2 H3 H4]]]]);
    try contradiction; try discriminate;
    try (apply in_singleton in H; subst m'; reflexivity);
    try (destruct (String.eqb_spec (Finish_coverprofile p b) "");
         destruct (String.eqb_spec (findGoCoverDir p) "");
         cbn [andb]; congruence).
Qed.

Lemma Finish_outcomes_witness :
  result_of (run (Sim.os Sim.no_go)
               (Finish (Sim.linux ["t"; "-test.coverprofile=c.out"] []) Sim.handle) 0)
  = Some "cannot find go tool: exec: go: executable file not found in $PATH" /\
  result_of (run (Sim.os Sim.failing_tool)
               (Finish (Sim.linux ["t"; "-test.coverprofile=c.out"] []) Sim.handle) 0)
  = Some "go tool covdata: main.go:3:1: syntax error" /\
  result_of (run (Sim.os Sim.no_mkdir)
               (Finish (Sim.linux ["t"] ["GOCOVERDIR=/cov"]) Sim.handle) 0)
  = Some "mkdir GOCOVERDIR: mkdir /cov: permission denied" /\
  result_of (run (Sim.os unlistable)
               (Finish (Sim.linux ["t"] ["GOCOVERDIR=/cov"]) Sim.handle) 0)
  = Some "copying cov files to -test.gocoverdir /cov: open /tmp/gotestexe1/.coverage: permission denied" /\
  result_of (run (Sim.os Sim.fine)
               (Finish (Sim.linux ["t"] ["GOCOVERDIR=/cov"]) Sim.handle) 0)
  = None.
Proof.
  split; [| split; [| split; [| split]]].
  - apply (proj1 (Finish_outcomes (Sim.os Sim.no_go)
             (Sim.linux ["t"; "-test.coverprofile=c.out"] []) Sim.handle 0)).
    left. reflexivity.
  - apply (proj1 (proj2 (Finish_outcomes (Sim.os Sim.failing_tool)
             (Sim.linux ["t"; "-test.coverprofile=c.out"] []) Sim.handle 0))).
    left. reflexivity.
  - apply (proj1 (proj2 (proj2 (Finish_outcomes (Sim.os Sim.no_mkdir)
             (Sim.linux ["t"] ["GOCOVERDIR=/cov"]) Sim.handle 0)))).
    left. reflexivity.
  - apply (proj1 (proj2 (proj2 (proj2 (Finish_outcomes (Sim.os unlistable)
             (Sim.linux ["t"] ["GOCOVERDIR=/cov"]) Sim.handle 0))))).
    left. reflexivity.
  - apply (proj2 (proj2 (proj2 (proj2 (Finish_outcomes (Sim.os Sim.fine)
             (Sim.linux ["t"] ["GOCOVERDIR=/cov"]) Sim.handle 0)))));
      reflexivity.
Defined.

Ltac quiet_loop T :=
  let T1 := fresh "T1" in
  destruct (T (@nil event) (@nil File)) as (T1 & _);
  destruct (file_events_quiet _ T1)
    as (?Q1 & ?Q2 & ?Q3 & ?Q4 & ?Q5 & ?Q6 & ?Q7 & ?Q8 & ?Q9 & ?Q10 & ?Q11).

Ltac observe :=
  unfold lookups, lookup_failures, commands_run, failed_outputs,
    mkdir_failures, dirs_asked, tempdirs_asked, tempdirs_made, listings,
    listings_asked, trees_removed, creations, openings in *;
  cbn [flat_map app fst snd]; rewrite ?flat_map_app;
  cbn [flat_map app fst snd].

(** X6. When the merge fails, because the go tool is not found or because
    it exits non-zero, [Finish] does not touch the raw coverage directory,
    configured or not: it makes no directory, lists none, creates no file
    and copies nothing; the temporary root is removed all the same. *)
Theorem Finish_failed_merge_copies_nothing (os : OS) (p : Proc) (b : Exe)
        (s : os_state os) :
  let t := trace_of (run os (Finish p b) s) in
  lookup_failures t <> [] \/ failed_outputs t <> [] ->
  dirs_asked t = [] /\ listings_asked t = [] /\ creations t = [] /\
  copies t = [] /\ trees_removed t = [binDir b].
Proof.
  cbv zeta.
  finish_cases os p b; try quiet_loop T; observe;
    rewrite ?Q2, ?Q4; cbn [app];
    (intros [H | H]; try (exfalso; apply H; reflexivity));
    repeat split.
Qed.

Lemma Finish_failed_merge_copies_nothing_witness :
  let t := trace_of (run (Sim.os Sim.failing_tool)
             (Finish (Sim.linux ["t"; "-test.coverprofile=c.out"; "-test.gocoverdir=/cov"] [])
                     Sim.handle) 0) in
  dirs_asked t = [] /\ listings_asked t = [] /\ creations t = [] /\
  copies t = [] /\ trees_removed t = [binDir Sim.handle].
Proof.
  apply (Finish_failed_merge_copies_nothing (Sim.os Sim.failing_tool)
           (Sim.linux ["t"; "-test.coverprofile=c.out"; "-test.gocoverdir=/cov"] [])
           Sim.handle 0).
  right. vm_compute. discriminate.
Defined.

(** X7. [Finish] does only what is configured. Without a profile
    destination it looks up no tool and runs no subprocess; without a raw
    coverage directory it makes no directory, lists none and creates no
    file. In every case it asks for one removal only, that of the
    temporary root. *)
Theorem Finish_does_what_is_configured (os : OS) (p : Proc) (b : Exe)
        (s : os_state os) :
  let t := trace_of (run os (Finish p b) s) in
  (Finish_coverprofile p b = "" -> lookups t = [] /\ commands_run t = []) /\
  (findGoCoverDir p = "" ->
   dirs_asked t = [] /\ listings_asked t = [] /\ creations t = [] /\ copies t = []) /\
  trees_removed t = [binDir b] /\
  tempdirs_asked t = [].
Proof.
  cbv zeta.
  finish_cases os p b; try quiet_loop T; observe;
    rewrite ?Q1, ?Q3, ?Q7, ?Q11; cbn [app];
    (split; [intros H | split; [intros H | split]]);
    try contradiction; repeat split.
Qed.

Lemma Finish_does_what_is_configured_witness :
  lookups (trace_of (run (Sim.os Sim.fine)
             (Finish (Sim.linux ["t"] ["GOCOVERDIR=/cov"]) Sim.handle) 0)) = [] /\
  creations (trace_of (run (Sim.os Sim.fine)
               (Finish (Sim.linux ["t"; "-test.coverprofile=c.out"] []) Sim.handle) 0)) = [].
Proof.
  split.
  - apply (proj1 (Finish_does_what_is_configured (Sim.os Sim.fine)
                    (Sim.linux ["t"] ["GOCOVERDIR=/cov"]) Sim.handle 0)).
    reflexivity.
  - apply (proj1 (proj2 (Finish_does_what_is_configured (Sim.os Sim.fine)
                    (Sim.linux ["t"; "-test.coverprofile=c.out"] []) Sim.handle 0))).
    reflexivity.
Defined.

(** ** Build, further *)

(** X8. The handle [Build] returns sits in the temporary directory the
    operating system gave it: [binDir] is that directory, [CoverageDir]
    is [.coverage] inside it, the one directory [Build] made with
    [os.MkdirAll], with permissions 0700, and [Path] is the executable
    inside it; what the options set in these three fields is overwritten,
    and the other four fields are as the options left them. *)
Theorem Build_handle (os : OS) (p : Proc) (exeName : string)
        (opts : list Option) (s : os_state os) (b : Exe) :
  let r := run os (Build p exeName opts) s in
  let e := apply_options opts zeroExe in
  result_of r = (Some b, None) ->
  tempdirs_asked (trace_of r) = [("", "gotestexe")] /\
  tempdirs_made (trace_of r) = [binDir b] /\
  dirs_asked (trace_of r) = [(CoverageDir b, 448%N)] /\
  CoverageDir b = filepath_Join p (binDir b) ".coverage" /\
  Path b = filepath_Join p (binDir b) (Build_exeName p exeName) /\
  buildPkg b = buildPkg e /\ extraArgs b = extraArgs e /\
  overrideCovDir b = overrideCovDir e /\ delveOpts b = delveOpts e.
Proof.
  unfold Build, goTool, result_of, trace_of. cbn [run bind call].
  run_through; cbn [fst snd]; intros H; try discriminate H.
  inversion H. subst b. cbn. repeat split.
Qed.

Lemma Build_handle_witness :
  let b := {| Path := "/tmp/gotestexe1/add";
              CoverageDir := "/tmp/gotestexe1/.coverage";
              binDir := "/tmp/gotestexe1"; buildPkg := "./example";
              extraArgs := []; overrideCovDir := "";
              delveOpts := [] |} in
  let moved : Option := fun e => set_binDir "/elsewhere" (set_Path "/bin/sh" e) in
  tempdirs_made
    (trace_of (run (Sim.os Sim.fine)
                 (Build (Sim.linux [] []) "add" [moved; Package "./example"]) 0))
  = [binDir b].
Proof.
  cbv zeta.
  apply (Build_handle (Sim.os Sim.fine) (Sim.linux [] []) "add"
           [(fun e => set_binDir "/elsewhere" (set_Path "/bin/sh" e));
            Package "./example"] 0).
  reflexivity.
Defined.

(** X9. [Build] removes nothing, ever. When the build exits non-zero, or
    when the coverage directory cannot be made, the temporary directory
    made before stays behind, and no handle is returned with which
    [Finish] could remove it. *)
Theorem Build_leaves_the_root_behind (os : OS) (p : Proc) (exeName : string)
        (opts : list Option) (s : os_state os) :
  let r := run os (Build p exeName opts) s in
  trees_removed (trace_of r) = [] /\
  (failed_outputs (trace_of r) <> [] \/ dirs_asked (trace_of r) <> [] ->
   snd (result_of r) <> None ->
   fst (result_of r) = None /\
   exists dir, tempdirs_made (trace_of r) = [dir]).
Proof.
  unfold Build, goTool, result_of, trace_of. cbn [run bind call].
  run_through; cbn [fst snd]; (split; [reflexivity |]);
    cbn; intros [H | H] E; try (exfalso; apply H; reflexivity);
    try (exfalso; apply E; reflexivity);
    (split; [reflexivity | eexists; reflexivity]).
Qed.

Lemma Build_leaves_the_root_behind_witness :
  let r := run (Sim.os Sim.failing_tool) (Build (Sim.linux [] []) "add" []) 0 in
  fst (result_of r) = None /\ exists dir, tempdirs_made (trace_of r) = [dir].
Proof.
  apply (proj2 (Build_leaves_the_root_behind (Sim.os Sim.failing_tool)
                  (Sim.linux [] []) "add" [] 0)).
  - left. vm_compute. discriminate.
  - vm_compute. discriminate.
Defined.

(** X10. [Build] looks the go tool up first, and once: when it is not
    found nothing is made and nothing is run; when the temporary
    directory cannot be made, no other directory is made and nothing is
    run; and a build is only run in a coverage directory that was made. *)
Theorem Build_steps_in_order (os : OS) (p : Proc) (exeName : string)
        (opts : list Option) (s : os_state os) :
  let t := trace_of (run os (Build p exeName opts) s) in
  lookups t = ["go" ++ (if String.eqb (GOOS p) "windows" then ".exe" else "")] /\
  (lookup_failures t <> [] ->
   tempdirs_asked t = [] /\ dirs_asked t = [] /\ commands_run t = []) /\
  (tempdirs_made t = [] -> dirs_asked t = [] /\ commands_run t = []) /\
  (commands_run t <> [] ->
   mkdir_failures t = [] /\ exists dir, tempdirs_made t = [dir]
   /\ dirs_asked t = [(filepath_Join p dir ".coverage", 448%N)]).
Proof.
  unfold Build, goTool, trace_of. cbn [run bind call].
  run_through; cbn [fst snd]; (split; [reflexivity |]); cbn;
    (split; [intros H | split; [intros H | intros H]]);
    try (exfalso; apply H; reflexivity); try discriminate H;
    repeat split; eauto.
Qed.

Lemma Build_steps_in_order_witness :
  commands_run (trace_of (run (Sim.os Sim.no_go) (Build (Sim.linux [] []) "add" []) 0)) = [] /\
  commands_run (trace_of (run (Sim.os Sim.no_tempdir) (Build (Sim.linux [] []) "add" []) 0)) = [] /\
  mkdir_failures (trace_of (run (Sim.os Sim.fine) (Build (Sim.linux [] []) "add" []) 0)) = [].
Proof.
  split; [| split].
  - apply (proj1 (proj2 (Build_steps_in_order (Sim.os Sim.no_go)
                           (Sim.linux [] []) "add" [] 0))).
    vm_compute. discriminate.
  - apply (proj1 (proj2 (proj2 (Build_steps_in_order (Sim.os Sim.no_tempdir)
                           (Sim.linux [] []) "add" [] 0)))).
    reflexivity.
  - apply (proj2 (proj2 (proj2 (Build_steps_in_order (Sim.os Sim.fine)
                           (Sim.linux [] []) "add" [] 0)))).
    vm_compute. discriminate.
Defined.

(** ** From Build to Finish *)

(** [Finish] reads the handle: the merge takes its input from
    [CoverageDir], the listing is that of [CoverageDir] and the removal
    that of [binDir]. *)
Lemma Finish_reads_the_handle (os : OS) (p : Proc) (b : Exe) (s : os_state os) :
  let t := trace_of (run os (Finish p b) s) in
  (commands_run t = [] \/
   exists gotool,
     commands_run t
     = [exec_Command gotool
          ["tool"; "covdata"; "textfmt"; "-i"; CoverageDir b;
           "-o"; Finish_coverprofile p b]]) /\
  (listings_asked t = [] \/ listings_asked t = [CoverageDir b]) /\
  trees_removed t = [binDir b].
Proof.
  cbv zeta.
  finish_cases os p b; try quiet_loop T; observe;
    rewrite ?Q3, ?Q10, ?Q11; cbn [app];
    repeat split; eauto.
Qed.

(** The merge [Finish] runs writes to the profile destination: every
    subprocess of [Finish] is the merge of the coverage directory into
    it, there is one as soon as a destination is set and the go tool is
    found, and none without a destination. *)
Lemma Finish_merge_command (os : OS) (p : Proc) (b : Exe) (s : os_state os) :
  let t := trace_of (run os (Finish p b) s) in
  (forall c, In c (commands_run t) ->
     exists gotool,
       c = exec_Command gotool
             ["tool"; "covdata"; "textfmt"; "-i"; CoverageDir b;
              "-o"; Finish_coverprofile p b]) /\
  (Finish_coverprofile p b <> "" -> lookup_failures t = [] ->
   exists gotool,
     commands_run t
     = [exec_Command gotool
          ["tool"; "covdata"; "textfmt"; "-i"; CoverageDir b;
           "-o"; Finish_coverprofile p b]]) /\
  (Finish_coverprofile p b = "" -> commands_run t = []).
Proof.
  cbv zeta.
  finish_cases os p b; try quiet_loop T; observe;
    rewrite ?Q2, ?Q3; cbn [app];
    (split; [intros c H | split; [intros H1 H2 | intros H]]);
    try contradiction; try discriminate; try reflexivity;
    try (apply in_singleton in H; subst c); eauto.
Qed.

(** C1. [Finish] returns the configuration error if and only if it finds no
    profile destination (no override and no value for -test.coverprofile)
    and no raw coverage directory (no value for -test.gocoverdir and none
    for GOCOVERDIR); the scanner finds no value when no argument begins
    with the flag; an override set by [WriteCoverage] is the profile
    destination, whatever the flag says: with an override the merge that
    [Finish] runs writes to it, [-o <override>], and it is run as soon as
    the go tool is found; without one the merge writes to the value of
    the flag, and without either no merge is run. *)
Theorem Finish_configuration_error (os : OS) (p : Proc) (b : Exe)
        (s : os_state os) :
  (result_of (run os (Finish p b) s) = Some ConfigurationError <->
   (overrideCovDir b = "" /\ findArg p "test.coverprofile" = "") /\
   (findArg p "test.gocoverdir" = "" /\ os_Getenv p "GOCOVERDIR" = "")) /\
  (overrideCovDir b <> "" -> Finish_coverprofile p b = overrideCovDir b) /\
  (overrideCovDir b = "" ->
   Finish_coverprofile p b = findArg p "test.coverprofile") /\
  (forall (path : string) (e : Exe), overrideCovDir (WriteCoverage path e) = path) /\
  (forall key : string,
      (forall arg, In arg (os_Args p) -> matches key arg = false) ->
      findArg p key = "") /\
  (overrideCovDir b <> "" ->
   (forall c, In c (commands_run (trace_of (run os (Finish p b) s))) ->
      exists gotool,
        c = exec_Command gotool
              ["tool"; "covdata"; "textfmt"; "-i"; CoverageDir b;
               "-o"; overrideCovDir b]) /\
   (lookup_failures (trace_of (run os (Finish p b) s)) = [] ->
    exists gotool,
      commands_run (trace_of (run os (Finish p b) s))
      = [exec_Command gotool
           ["tool"; "covdata"; "textfmt"; "-i"; CoverageDir b;
            "-o"; overrideCovDir b]])) /\
  (overrideCovDir b = "" -> findArg p "test.coverprofile" <> "" ->
   (forall c, In c (commands_run (trace_of (run os (Finish p b) s))) ->
      exists gotool,
        c = exec_Command gotool
              ["tool"; "covdata"; "textfmt"; "-i"; CoverageDir b;
               "-o"; findArg p "test.coverprofile"]) /\
   (lookup_failures (trace_of (run os (Finish p b) s)) = [] ->
    exists gotool,
      commands_run (trace_of (run os (Finish p b) s))
      = [exec_Command gotool
           ["tool"; "covdata"; "textfmt"; "-i"; CoverageDir b;
            "-o"; findArg p "test.coverprofile"]])) /\
  (overrideCovDir b = "" -> findArg p "test.coverprofile" = "" ->
   commands_run (trace_of (run os (Finish p b) s)) = []).
Proof.
  assert (O : overrideCovDir b <> "" -> Finish_coverprofile p b = overrideCovDir b).
  { intros H. unfold Finish_coverprofile.
    destruct (String.eqb_spec (overrideCovDir b) ""); [contradiction | reflexivity]. }
  assert (F : overrideCovDir b = "" ->
              Finish_coverprofile p b = findArg p "test.coverprofile").
  { intros H. unfold Finish_coverprofile. rewrite H. reflexivity. }
  destruct (Finish_merge_command os p b s) as (M1 & M2 & M3).
  split; [| split; [exact O | split; [exact F | split; [reflexivity |
    split; [apply findArg_no_match | split; [| split]]]]]].
  - rewrite <- Finish_coverprofile_empty, <- findGoCoverDir_empty.
    rewrite <- (Finish_body_configuration_error os p b s).
    rewrite Finish_run. unfold result_of.
    destruct (run os (Finish_body p b) s) as [[r s1] t1].
    destruct (os_answer os (os_RemoveAll (binDir b)) s1) as [x s2].
    reflexivity.
  - intros H. rewrite (O H) in M1, M2. split; [exact M1 |].
    apply M2. exact H.
  - intros H N. rewrite (F H) in M1, M2. split; [exact M1 |].
    apply M2. exact N.
  - intros H N. apply M3. rewrite (F H). exact N.
Qed.

Lemma Finish_configuration_error_witness :
  Finish_coverprofile (Sim.linux ["t"; "-test.coverprofile=c.out"] [])
                      (WriteCoverage "override.out" Sim.handle)
  = "override.out" /\
  Finish_coverprofile (Sim.linux ["t"; "-test.coverprofile=c.out"] []) Sim.handle
  = "c.out" /\
  result_of (run (Sim.os Sim.fine) (Finish (Sim.linux ["t"] ["HOME=/root"]) Sim.handle) 0)
  = Some ConfigurationError /\
  (exists gotool,
      commands_run
        (trace_of (run (Sim.os Sim.fine)
                     (Finish (Sim.linux ["t"; "-test.coverprofile=c.out"] [])
                             (WriteCoverage "override.out" Sim.handle)) 0))
      = [exec_Command gotool
           ["tool"; "covdata"; "textfmt"; "-i"; "/tmp/gotestexe1/.coverage";
            "-o"; "override.out"]]) /\
  (exists gotool,
      commands_run
        (trace_of (run (Sim.os Sim.fine)
                     (Finish (Sim.linux ["t"; "-test.coverprofile=c.out"] [])
                             Sim.handle) 0))
      = [exec_Command gotool
           ["tool"; "covdata"; "textfmt"; "-i"; "/tmp/gotestexe1/.coverage";
            "-o"; "c.out"]]) /\
  commands_run
    (trace_of (run (Sim.os Sim.fine)
                 (Finish (Sim.linux ["t"] ["GOCOVERDIR=/cov"]) Sim.handle) 0))
  = [].
Proof.
  split; [| split; [| split; [| split; [| split]]]].
  - apply (proj1 (proj2 (Finish_configuration_error (Sim.os Sim.fine)
             (Sim.linux ["t"; "-test.coverprofile=c.out"] [])
             (WriteCoverage "override.out" Sim.handle) 0))).
    simpl. discriminate.
  - apply (proj1 (proj2 (proj2 (Finish_configuration_error (Sim.os Sim.fine)
             (Sim.linux ["t"; "-test.coverprofile=c.out"] []) Sim.handle 0)))).
    reflexivity.
  - apply (proj1 (Finish_configuration_error (Sim.os Sim.fine)
             (Sim.linux ["t"] ["HOME=/root"]) Sim.handle 0)).
    repeat split.
  - destruct (Finish_configuration_error (Sim.os Sim.fine)
                (Sim.linux ["t"; "-test.coverprofile=c.out"] [])
                (WriteCoverage "override.out" Sim.handle) 0)
      as (_ & _ & _ & _ & _ & W & _).
    apply (proj2 (W ltac:(simpl; discriminate))). reflexivity.
  - destruct (Finish_configuration_error (Sim.os Sim.fine)
                (Sim.linux ["t"; "-test.coverprofile=c.out"] []) Sim.handle 0)
      as (_ & _ & _ & _ & _ & _ & W & _).
    apply (proj2 (W eq_refl ltac:(vm_compute; discriminate))). reflexivity.
  - destruct (Finish_configuration_error (Sim.os Sim.fine)
                (Sim.linux ["t"] ["GOCOVERDIR=/cov"]) Sim.handle 0)
      as (_ & _ & _ & _ & _ & _ & _ & W).
    apply W; reflexivity.
Defined.

(** X11. The three operations fit together. On a handle that [Build]
    returned, every [Command] tells the executable to write its coverage
    into the directory [Build] made, and, without debug options, runs the
    file [Build] had the go tool write; and every [Finish] merges from
    that directory, lists that directory and removes the temporary
    directory [Build] was given, and nothing else. *)
Theorem Build_then_Command_then_Finish (os : OS) (p : Proc) (exeName : string)
        (opts : list Option) (s : os_state os) (b : Exe) :
  let r := run os (Build p exeName opts) s in
  result_of r = (Some b, None) ->
  exists dir cov gotool : string,
    tempdirs_made (trace_of r) = [dir] /\
    dirs_asked (trace_of r) = [(cov, 448%N)] /\
    commands_run (trace_of r) = [exec_Command gotool (Build_args b)] /\
    (exists pre post,
        Build_args b = (pre ++ ["-o"; Path b] ++ post)%list) /\
    (forall args, In ("GOCOVERDIR=" ++ cov) (cmd_Env (Command p b args))) /\
    (forall args, delveOpts b = [] -> cmd_Path (Command p b args) = Path b) /\
    (forall (os' : OS) (s' : os_state os'),
        let t' := trace_of (run os' (Finish p b) s') in
        trees_removed t' = [dir] /\
        (listings_asked t' = [] \/ listings_asked t' = [cov]) /\
        (commands_run t' = [] \/
         exists gotool',
           commands_run t'
           = [exec_Command gotool'
                ["tool"; "covdata"; "textfmt"; "-i"; cov;
                 "-o"; Finish_coverprofile p b]])).
Proof.
  cbv zeta. intros H.
  assert (F : forall (os' : OS) (s' : os_state os'),
             let t' := trace_of (run os' (Finish p b) s') in
             trees_removed t' = [binDir b] /\
             (listings_asked t' = [] \/ listings_asked t' = [CoverageDir b]) /\
             (commands_run t' = [] \/
              exists gotool',
                commands_run t'
                = [exec_Command gotool'
                     ["tool"; "covdata"; "textfmt"; "-i"; CoverageDir b;
                      "-o"; Finish_coverprofile p b]])).
  { intros os' s'. cbv zeta.
    destruct (Finish_reads_the_handle os' p b s') as (F1 & F2 & F3). auto. }
  assert (E : forall args,
             In ("GOCOVERDIR=" ++ CoverageDir b) (cmd_Env (Command p b args))).
  { intros args. unfold Command. cbn [cmd_Env set_Env].
    apply in_or_app. right. left. reflexivity. }
  assert (D : forall args, delveOpts b = [] -> cmd_Path (Command p b args) = Path b).
  { intros args N. unfold Command. rewrite N. reflexivity. }
  assert (A : exists pre post,
             Build_args b = (pre ++ ["-o"; Path b] ++ post)%list).
  { unfold Build_args.
    destruct (negb (String.eqb (buildPkg b) "")).
    - exists ("build" :: extraArgs b ++ ["-cover"])%list, [buildPkg b].
      cbn. rewrite <- !app_assoc. reflexivity.
    - exists ("build" :: extraArgs b ++ ["-cover"])%list, [].
      cbn. rewrite <- !app_assoc. reflexivity. }
  revert H F E D A.
  unfold Build, goTool, result_of, trace_of. cbn [run bind call].
  run_through; cbn [fst snd]; intros H; try discriminate H.
  inversion H. subst b. cbn [binDir CoverageDir set_Path set_CoverageDir set_binDir].
  intros F E D A. do 3 eexists.
  split; [reflexivity |]. split; [reflexivity |]. split; [reflexivity |].
  split; [exact A |]. split; [exact E |]. split; [exact D | exact F].
Qed.

Lemma Build_then_Command_then_Finish_witness :
  exists dir cov : string,
    forall args,
      In ("GOCOVERDIR=" ++ cov)
         (cmd_Env (Command (Sim.linux [] []) Sim.handle args)) /\
      trees_removed
        (trace_of (run (Sim.os Sim.fine) (Finish (Sim.linux [] []) Sim.handle) 0))
      = [dir].
Proof.
  destruct (Build_then_Command_then_Finish (Sim.os Sim.fine) (Sim.linux [] [])
              "add" [] 0 (b := Sim.handle) eq_refl)
    as (dir & cov & gotool & _ & _ & _ & _ & E & _ & F).
  exists dir, cov. intros args. split; [apply E |].
  apply (F (Sim.os Sim.fine) 0).
Defined.

(** ** Options *)

Lemma last_snoc (A : Type) (l : list A) (x d : A) : List.last (l ++ [x]) d = x.
Proof.
  induction l as [| a l IH]; [reflexivity |].
  cbn [app]. destruct (l ++ [x])%list eqn:E.
  - destruct l; discriminate E.
  - cbn [List.last]. exact IH.
Qed.

(** The two lists the options accumulate. *)
Lemma options_compose_aux (l : list Setting) :
  delveOpts (apply_options (map option_of l) zeroExe) = debugger_args l /\
  extraArgs (apply_options (map option_of l) zeroExe) = debug_flags l.
Proof.
  induction l as [| o l IH] using rev_ind.
  - split; reflexivity.
  - rewrite map_app. cbn [map]. rewrite apply_options_app.
    unfold debugger_args, debug_flags in *. rewrite !flat_map_app. cbn [flat_map].
    destruct IH as (I1 & I2).
    destruct o as [a | path | pkg];
      cbn [option_of Debug WriteCoverage Package delveOpts extraArgs];
      rewrite ?app_nil_r, ?I1, ?I2; split; reflexivity.
Qed.

(** X12. Options compose from left to right. A handle the three exported
    options were run on holds the debugger arguments of all the [Debug]
    options, in order; one flag turning optimisation off for each [Debug]
    option, so twice when [Debug] is given twice; the package of the last
    [Package] option and the path of the last [WriteCoverage] option, an
    empty one included; and no path or directory. *)
Theorem options_compose (l : list Setting) :
  let e := apply_options (map option_of l) zeroExe in
  delveOpts e = debugger_args l /\
  extraArgs e = debug_flags l /\
  buildPkg e = List.last (packages l) "" /\
  overrideCovDir e = List.last (overrides l) "" /\
  Path e = "" /\ CoverageDir e = "" /\ binDir e = "".
Proof.
  cbv zeta. induction l as [| o l IH] using rev_ind.
  - repeat split.
  - rewrite map_app. cbn [map]. rewrite apply_options_app.
    unfold debugger_args, debug_flags, packages, overrides in *.
    rewrite !flat_map_app. cbn [flat_map].
    destruct IH as (I1 & I2 & I3 & I4 & I5 & I6 & I7).
    destruct o as [a | path | pkg]; cbn [option_of Debug WriteCoverage Package
      delveOpts extraArgs buildPkg overrideCovDir Path CoverageDir binDir];
      rewrite ?app_nil_r, ?last_snoc, ?I1, ?I2; repeat split; assumption.
Qed.

Example options_last_wins :
  let e := apply_options
             (map option_of [SetPackage "./a"; SetDebug ["-l"; ":1"]; SetPackage "";
                             SetDebug ["--headless"]])
             zeroExe in
  buildPkg e = "" /\
  extraArgs e = ["-gcflags=all=-N -l"; "-gcflags=all=-N -l"] /\
  delveOpts e = ["-l"; ":1"; "--headless"].
Proof. repeat split. Qed.

(** X13. [Debug] without debugger arguments only changes the build: on a
    handle whose options gave no debugger argument, [Command] runs the
    executable itself, not the debugger, while the build of that handle
    still has the flag that turns optimisation off once for each [Debug]
    option. *)
Theorem Debug_without_arguments (p : Proc) (l : list Setting) (b : Exe)
        (args : list string) :
  delveOpts b = delveOpts (apply_options (map option_of l) zeroExe) ->
  extraArgs b = extraArgs (apply_options (map option_of l) zeroExe) ->
  debugger_args l = [] ->
  cmd_Path (Command p b args) = Path b /\
  cmd_Args (Command p b args) = Path b :: args /\
  (forall a, In (SetDebug a) l -> In "-gcflags=all=-N -l" (Build_args b)).
Proof.
  intros D E N.
  destruct (options_compose_aux l) as (O1 & O2).
  rewrite O1, N in D. rewrite O2 in E.
  split; [| split].
  - unfold Command. rewrite D. reflexivity.
  - unfold Command. rewrite D. reflexivity.
  - intros a I. unfold Build_args.
    assert (G : In "-gcflags=all=-N -l" (extraArgs b)).
    { rewrite E. unfold debug_flags. apply in_flat_map.
      exists (SetDebug a). split; [exact I | left; reflexivity]. }
    destruct (negb (String.eqb (buildPkg b) ""));
      cbn [app]; right; rewrite <- ?app_assoc; apply in_or_app; left; exact G.
Qed.

Lemma Debug_without_arguments_witness :
  let b := apply_options (map option_of [SetDebug []; SetPackage "./example"]) Sim.handle in
  cmd_Args (Command (Sim.linux [] []) b ["1"; "3"]) = [Path b; "1"; "3"] /\
  In "-gcflags=all=-N -l" (Build_args b).
Proof.
  cbv zeta.
  destruct (Debug_without_arguments (Sim.linux [] [])
              [SetDebug []; SetPackage "./example"]
              (apply_options (map option_of [SetDebug []; SetPackage "./example"])
                 Sim.handle)
              ["1"; "3"] eq_refl eq_refl eq_refl) as (_ & A & G).
  split; [exact A |]. apply (G []). left. reflexivity.
Defined.

(** ** The argument scanner, further *)

Lemma find_first_match (A : Type) (f : A -> bool) (pre post : list A) (x : A) :
  (forall a, In a pre -> f a = false) -> f x = true ->
  List.find f (pre ++ x :: post) = Some x.
Proof.
  intros N Y. induction pre as [| a pre IH]; cbn [app List.find].
  - rewrite Y. reflexivity.
  - rewrite (N a (or_introl eq_refl)). apply IH. intros a' I.
    apply N. right. exact I.
Qed.

(** X14. Scanning finds what was written: for a key without an equals
    sign, when the first argument that begins with the dash and the key is
    the key followed by an equals sign and a value, the scanner returns
    that value, whatever it contains and whatever follows in the list.
    The key must not hold an equals sign: with one in it the scanner
    returns the rest of the key with the value. *)
Theorem findArg_round_trip (p : Proc) (key v : string) (pre post : list string) :
  os_Args p = (pre ++ ("-" ++ key ++ "=" ++ v)%string :: post)%list ->
  (forall a, In a pre -> matches key a = false) ->
  (after_first "="%char key = None -> findArg p key = v) /\
  (forall k1 k2, key = k1 ++ "=" ++ k2 -> after_first "="%char k1 = None ->
                 findArg p key = k2 ++ "=" ++ v).
Proof.
  intros A N.
  assert (F : List.find (matches key) (os_Args p) = Some ("-" ++ key ++ "=" ++ v)).
  { rewrite A. apply find_first_match; [exact N |].
    unfold matches. change ("-" ++ key ++ "=" ++ v) with (("-" ++ key) ++ "=" ++ v).
    apply prefix_app. }
  unfold findArg. rewrite findArg_in_spec. unfold findArg_spec. rewrite F.
  split.
  - intros K. cbn [String.append after_first Ascii.eqb Bool.eqb].
    change (key ++ String "=" v) with (key ++ String "="%char v).
    rewrite (after_first_app _ _ v K). reflexivity.
  - intros k1 k2 E K. subst key. cbn [String.append after_first Ascii.eqb Bool.eqb].
    replace ((k1 ++ String "=" k2) ++ String "=" v)
      with (k1 ++ String "="%char (k2 ++ String "=" v)).
    + rewrite (after_first_app _ _ _ K). reflexivity.
    + clear. induction k1 as [| a k1 IH]; cbn; [reflexivity | rewrite IH; reflexivity].
Qed.

Lemma findArg_round_trip_witness :
  findArg (Sim.linux ["t"; "-test.v"; "-test.coverprofile=a=b.out"; "-test.coverprofile=z"] [])
          "test.coverprofile" = "a=b.out" /\
  findArg (Sim.linux ["t"; "-x=y=v"] []) "x=y" = "y=v".
Proof.
  split.
  - refine (proj1 (findArg_round_trip
                     (Sim.linux ["t"; "-test.v"; "-test.coverprofile=a=b.out";
                                 "-test.coverprofile=z"] [])
                     "test.coverprofile" "a=b.out" ["t"; "-test.v"]
                     ["-test.coverprofile=z"] eq_refl _) _).
    + intros a [E | [E | []]]; subst a; reflexivity.
    + reflexivity.
  - refine (proj2 (findArg_round_trip (Sim.linux ["t"; "-x=y=v"] []) "x=y" "v"
                     ["t"] [] eq_refl _) "x" "y" eq_refl _).
    + intros a [E | []]; subst a; reflexivity.
    + reflexivity.
Defined.

(** ** The debug flag *)







(** X15. The function of the debug flag, on any value. A value [Atoi]
    accepts makes the option [Debug] on [--headless -l localhost:] and
    the value as it was written, in place of what the option was: a
    second occurrence of the flag overrides the first, where two [Debug]
    options would add up. A value [Atoi] refuses leaves the option as it
    was and returns the error of [Atoi]. Before any occurrence the option
    changes nothing. *)
Theorem DebugFlag_func_outcome (Quote : string -> string) (s : string)
        (opt : Option) :
  (snd (strconv.Atoi s) = None ->
   DebugFlag_func Quote s opt
   = (Debug ["--headless"; "-l"; "localhost:" ++ s], None) /\
   (forall s' e,
       snd (strconv.Atoi s') = None ->
       delveOpts (fst (DebugFlag_func Quote s (fst (DebugFlag_func Quote s' opt))) e)
       = (delveOpts e ++ ["--headless"; "-l"; ("localhost:" ++ s)%string])%list)) /\
  (forall err, snd (strconv.Atoi s) = Some err ->
               DebugFlag_func Quote s opt = (opt, Some (strconv.Error Quote s err))) /\
  (forall e, DebugFlag_initial e = e) /\
  (forall e, apply_options [DebugFlag_initial] e = apply_options [] e).
Proof.
  unfold DebugFlag_func.
  destruct (strconv.Atoi s) as [n [err |]] eqn:A; cbn [snd fst].
  - split; [intros H; discriminate H |]. split; [| split; reflexivity].
    intros err' H. inversion H. reflexivity.
  - split; [| split; [intros err H; discriminate H | split; reflexivity]].
    intros _. split; [reflexivity |]. intros s' e H.
    destruct (strconv.Atoi s') as [n' [err' |]]; reflexivity.
Qed.

Lemma DebugFlag_func_outcome_witness :
  DebugFlag_func (fun s => s) "+0022565" DebugFlag_initial
  = (Debug ["--headless"; "-l"; "localhost:+0022565"], None) /\
  DebugFlag_func (fun s => s) "2256x" (Debug ["-l"; ":1"])
  = (Debug ["-l"; ":1"], Some "strconv.Atoi: parsing 2256x: invalid syntax").
Proof.
  split.
  - apply (proj1 (proj1 (DebugFlag_func_outcome (fun s => s) "+0022565"
                           DebugFlag_initial) eq_refl)).
  - apply (proj1 (proj2 (DebugFlag_func_outcome (fun s => s) "2256x"
                           (Debug ["-l"; ":1"]))) strconv.ErrSyntax eq_refl).
Defined.



(** ** The tests of the example *)

(** X17. [TestMain] of the example. When [Build] fails it logs the error
    and exits with 1: no test is run and nothing more is called, so the
    temporary directory is not removed. When [Build] returns a handle,
    the tests are run on it, then [Finish]; the exit code is that of the
    tests, whatever [Finish] returns, whose error only adds a warning to
    the log. *)
Theorem TestMain_exit_code (os : OS) (p : Proc) (debugFlag : Option)
        (m_Run : Exe -> Prog Z) (s : os_state os) :
  let rb := run os (Build p "add" [debugFlag]) s in
  let r := run os (TestMain p debugFlag m_Run) s in
  (forall m, snd (result_of rb) = Some m ->
             result_of r = (1%Z, ["build error: " ++ m]) /\
             trace_of r = trace_of rb) /\
  (forall b, result_of rb = (Some b, None) ->
             let rt := run os (m_Run b) (state_of rb) in
             let rf := run os (Finish p b) (state_of rt) in
             fst (result_of r) = result_of rt /\
             snd (result_of r)
             = match result_of rf with
               | Some m => ["warning: " ++ m]
               | None => []
               end /\
             trace_of r = (trace_of rb ++ trace_of rt ++ trace_of rf)%list).
Proof.
  cbv zeta. unfold TestMain. rewrite run_bind.
  unfold result_of, trace_of, state_of.
  destruct (run os (Build p "add" [debugFlag]) s) as [[[exe err] s1] t1].
  cbn [fst snd]. split.
  - intros m H. subst err. cbn. rewrite app_nil_r. split; reflexivity.
  - intros b H. inversion H. subst exe err. rewrite !run_bind.
    destruct (run os (m_Run b) s1) as [[rc s2] t2]. cbn [fst snd].
    rewrite !run_bind.
    destruct (run os (Finish p b) s2) as [[[m |] s3] t3]; cbn [fst snd run];
      rewrite app_nil_r; repeat split.
Qed.

Lemma TestMain_exit_code_witness :
  result_of (run (Sim.os Sim.failing_tool)
               (TestMain (Sim.linux ["t"] []) DebugFlag_initial (fun _ => Ret 0%Z)) 0)
  = (1%Z, ["build error: go build: main.go:3:1: syntax error"]) /\
  fst (result_of (run (Sim.os Sim.fine)
                    (TestMain (Sim.linux ["t"] []) DebugFlag_initial (fun _ => Ret 3%Z)) 0))
  = 3%Z.
Proof.
  split.
  - apply (proj1 (TestMain_exit_code (Sim.os Sim.failing_tool) (Sim.linux ["t"] [])
                    DebugFlag_initial (fun _ => Ret 0%Z) 0)
             "go build: main.go:3:1: syntax error" eq_refl).
  - apply (proj2 (TestMain_exit_code (Sim.os Sim.fine) (Sim.linux ["t"] [])
                    DebugFlag_initial (fun _ => Ret 3%Z) 0) Sim.handle eq_refl).
Defined.

(** X18. [TestAdd4] looks at the first byte of the output only, and not
    at the error of the run: it passes exactly when the output begins
    with the digit 4, whatever follows and however the executable exited;
    on an empty output it panics. The executable is run on the arguments
    1 and 3, with the coverage directory of the handle in its
    environment. *)
Theorem TestAdd4_checks_the_first_byte (os : OS) (p : Proc) (exe : execover.Exe)
        (s : os_state os) :
  let r := run os (TestAdd4 p exe) s in
  exists (out : string) (err : error),
    trace_of r
    = [Called (Cmd_CombinedOutput
                 {| cmd_Path := execover.Path exe;
                    cmd_Args := [execover.Path exe; "1"; "3"];
                    cmd_Env := (os_Environ p
                                  ++ [("GOCOVERDIR=" ++ execover.CoverageDir exe)%string])%list |})
         (out, err)] /\
    (result_of r = Passed <-> exists rest, out = String "4" rest) /\
    (result_of r = Panicked <-> out = "").
Proof.
  cbv zeta. unfold TestAdd4, result_of, trace_of. cbn [run bind call].
  match goal with
  | |- context [os_answer os ?e s] =>
      destruct (os_answer os e s) as [[out err] s1]
  end.
  cbn [run bind call fst snd].
  exists out, err.
  split; [destruct out as [| c rest]; [reflexivity |];
          destruct (negb (String.eqb (string_of_byte c) "4")); reflexivity |].
  destruct out as [| c rest]; cbn [run fst snd].
  - split; split; intros H; try discriminate H; try reflexivity.
    destruct H as (rest & H). discriminate H.
  - unfold string_of_byte.
    destruct (Nat.ltb (nat_of_ascii c) 128) eqn:L.
    + destruct (String.eqb_spec (String c "") "4") as [E | E]; cbn [negb run fst].
      * inversion E. subst c. split; split; intros H; try discriminate H; eauto.
      * split; split; intros H; try discriminate H.
        destruct H as (rest' & H). inversion H. subst c. contradiction.
    + match goal with
      | |- context [String.eqb ?a ?b] =>
          destruct (String.eqb_spec a b) as [E | _]; [discriminate E |]
      end.
      cbn [negb run fst].
      split; split; intros H; try discriminate H.
      destruct H as (rest' & H). inversion H. subst c. discriminate L.
Qed.

Example TestAdd4_passes_on_42 :
  let os := Sim.os {| Sim.look := Sim.look Sim.fine; Sim.tempdir := Sim.tempdir Sim.fine;
                      Sim.mkdirall := Sim.mkdirall Sim.fine;
                      Sim.readdir := Sim.readdir Sim.fine;
                      Sim.create := Sim.create Sim.fine; Sim.open := Sim.open Sim.fine;
                      Sim.copy := Sim.copy Sim.fine;
                      Sim.output := fun _ => ("42 is not the sum", Some "exit status 1") |} in
  result_of (run os (TestAdd4 (Sim.linux [] [])
                       {| execover.Path := "/x/add"; execover.CoverageDir := "/x/.coverage";
                          execover.binDir := "/x" |}) 0)
  = Passed.
Proof. reflexivity. Qed.

(** ** The package before options *)

(** X19. [Finish] of [execover]. It looks the go tool up before anything
    else, so without the tool it returns the error of the lookup even
    when no profile destination is given; with the tool and without a
    value for -test.coverprofile it returns the configuration error and
    runs nothing; otherwise it runs the merge and returns its failure or
    no error. It never makes or lists a directory and creates no file,
    whatever GOCOVERDIR says, and it removes the temporary root last, on
    every path. *)
Theorem execover_Finish_outcomes (os : OS) (p : Proc) (b : execover.Exe)
        (s : os_state os) :
  let r := run os (execover.Finish p b) s in
  let t := trace_of r in
  lookups t = ["go1.20rc1" ++ (if String.eqb (GOOS p) "windows" then ".exe" else "")] /\
  (forall m, In m (lookup_failures t) ->
             result_of r = Some ("cannot find go tool: " ++ m)) /\
  (forall out, In out (failed_outputs t) ->
               result_of r = Some ("go tool covdata: " ++ out)) /\
  (lookup_failures t = [] -> failed_outputs t = [] ->
   if String.eqb (findArg p "test.coverprofile") ""
   then result_of r = Some ConfigurationError /\ commands_run t = []
   else result_of r = None /\
        exists gotool,
          commands_run t
          = [exec_Command gotool
               ["tool"; "covdata"; "textfmt"; "-i"; execover.CoverageDir b;
                "-o"; findArg p "test.coverprofile"]]) /\
  dirs_asked t = [] /\ listings_asked t = [] /\ creations t = [] /\
  trees_removed t = [execover.binDir b] /\
  exists x t0, t = (t0 ++ [Called (os_RemoveAll (execover.binDir b)) x])%list.
Proof.
  cbv zeta.
  unfold execover.Finish, execover.Finish_body, execover.goTool, result_of, trace_of.
  cbn [run bind call].
  answer_step. error_case.
  - answer_step. cbn.
    repeat split; try (intros m' H; try contradiction;
                       apply in_singleton in H; subst m'; reflexivity);
      try (intros H; discriminate H).
    eexists. eexists (_ :: nil). reflexivity.
  - destruct (String.eqb_spec (findArg p "test.coverprofile") "") as [E | E];
      cbn [negb run bind call]; run_through; cbn;
      repeat split; try (intros m' H; try contradiction;
                         apply in_singleton in H; subst m'; reflexivity);
      try (intros H; try discriminate H; intros H'; try discriminate H');
      try reflexivity; eauto;
      try (eexists; eexists (_ :: _ :: nil); reflexivity);
      try (eexists; eexists (_ :: nil); reflexivity);
      try congruence.
Qed.

Lemma execover_Finish_outcomes_witness :
  result_of (run (Sim.os Sim.no_go)
               (execover.Finish (Sim.linux ["t"] [])
                  {| execover.Path := "/x/add"; execover.CoverageDir := "/x/.coverage";
                     execover.binDir := "/x" |}) 0)
  = Some "cannot find go tool: exec: go1.20rc1: executable file not found in $PATH" /\
  result_of (run (Sim.os Sim.fine)
               (execover.Finish (Sim.linux ["t"] ["GOCOVERDIR=/cov"])
                  {| execover.Path := "/x/add"; execover.CoverageDir := "/x/.coverage";
                     execover.binDir := "/x" |}) 0)
  = Some ConfigurationError.
Proof.
  split.
  - apply (proj1 (proj2 (execover_Finish_outcomes (Sim.os Sim.no_go) (Sim.linux ["t"] [])
                           {| execover.Path := "/x/add";
                              execover.CoverageDir := "/x/.coverage";
                              execover.binDir := "/x" |} 0))).
    left. reflexivity.
  - destruct (execover_Finish_outcomes (Sim.os Sim.fine)
                (Sim.linux ["t"] ["GOCOVERDIR=/cov"])
                {| execover.Path := "/x/add"; execover.CoverageDir := "/x/.coverage";
                   execover.binDir := "/x" |} 0) as (_ & _ & _ & W & _).
    specialize (W eq_refl eq_refl). exact (proj1 W).
Defined.

(** X20. Without debug options [Command] is the [Command] of [execover]:
    on the same path and coverage directory both build the same
    invocation, argument for argument and entry for entry of the
    environment. *)
Theorem Command_without_debug_is_execover (p : Proc) (b : Exe) (args : list string) :
  delveOpts b = [] ->
  Command p b args
  = execover.Command p {| execover.Path := Path b;
                          execover.CoverageDir := CoverageDir b;
                          execover.binDir := binDir b |} args.
Proof.
  intros H. unfold Command, execover.Command. rewrite H. reflexivity.
Qed.

Lemma Command_without_debug_is_execover_witness :
  Command (Sim.linux [] ["HOME=/root"]) Sim.handle ["1"; "3"]
  = execover.Command (Sim.linux [] ["HOME=/root"])
      {| execover.Path := "/tmp/gotestexe1/add";
         execover.CoverageDir := "/tmp/gotestexe1/.coverage";
         execover.binDir := "/tmp/gotestexe1" |} ["1"; "3"].
Proof.
  apply (Command_without_debug_is_execover (Sim.linux [] ["HOME=/root"]) Sim.handle
           ["1"; "3"]).
  reflexivity.
Defined.

